(** * KerasCV: resource loader and release builder

    A shallow embedding of [keras_cv/src/utils/resource_loader.py] and of
    [pip_build.py], with the properties their specification states.

    Python [str] values are Rocq strings (characters are the code points
    below 256), file contents are the text that [read_text] returns and
    [write_text] stores, exceptions are values of [exn] carried by [result],
    and the mutable world (file system, module globals, standard output) is
    threaded explicitly.  *)

From Stdlib Require Import ZArith Lia Bool Ascii.
From stdpp Require Import base option list sorting gmap strings pretty.

Local Open Scope Z_scope.
Local Open Scope nat_scope.

(** ** Python values shared by the two modules *)

(** The exceptions that the two modules raise or let through;
    [OpLoadError] stands for what [tf.load_op_library] raises. *)
Inductive exn : Type :=
| ValueError (msg : string)
| FileNotFoundError (msg : string)
| FileExistsError (msg : string)
| CalledProcessError (returncode : Z) (cmd : list string)
| KeyboardInterrupt
| ReError (msg : string)
| OpLoadError (msg : string).

Inductive result (A : Type) : Type :=
| Ok (a : A)
| Raise (e : exn).
Arguments Ok {A} a.
Arguments Raise {A} e.

(** The double quote, kept out of string literals. *)
Definition dquote : ascii := Ascii.ascii_of_nat 34.
Definition squote : ascii := Ascii.ascii_of_nat 39.
Definition backslash : ascii := Ascii.ascii_of_nat 92.
Definition newline : ascii := Ascii.ascii_of_nat 10.
Definition DQ : string := String dquote "".

Module Py.

(** [s.startswith(p)]. *)
Fixpoint startswith (p s : string) : bool :=
  match p, s with
  | EmptyString, _ => true
  | String a p', String b s' => if Ascii.eqb a b then startswith p' s' else false
  | String _ _, EmptyString => false
  end.

(** [sub in s]. *)
Fixpoint contains (sub s : string) : bool :=
  if startswith sub s then true
  else match s with
       | EmptyString => false
       | String _ s' => contains sub s'
       end.

(** [s.endswith(p)], through the reversed strings. *)
Definition endswith (p s : string) : bool :=
  startswith (String.rev p) (String.rev s).

(** [sep.join(parts)]. *)
Fixpoint join (sep : string) (parts : list string) : string :=
  match parts with
  | [] => ""
  | [p] => p
  | p :: rest => p +:+ sep +:+ join sep rest
  end.

(** [s.replace(old, new)]: every non-overlapping occurrence, left to
    right.  [skip] counts the characters of an occurrence still to be
    dropped. *)
Fixpoint replace_from (skip : nat) (old new s : string) : string :=
  match s with
  | EmptyString =>
      match skip, old with
      | O, EmptyString => new
      | _, _ => ""
      end
  | String c t =>
      match skip with
      | S k => replace_from k old new t
      | O =>
          if startswith old s then
            match String.length old with
            | O => new +:+ String c (replace_from 0 old new t)
            | S k => new +:+ replace_from k old new t
            end
          else String c (replace_from 0 old new t)
      end
  end.

Definition replace (old new s : string) : string := replace_from 0 old new s.

Definition nonempty (s : string) : bool :=
  match s with EmptyString => false | String _ _ => true end.

End Py.

(** ** keras_cv/src/utils/resource_loader.py *)

Module resource_loader.

Definition TF_VERSION_FOR_ABI_COMPATIBILITY : string := "2.17".

(** The functions of [os.path] and [os.sep] the module calls. *)
Class OsPath : Type := {
  sep : string;
  abspath : string -> string;
  dirname : string -> string;
  join2 : string -> string -> string;
  normpath : string -> string
}.

(** [os.path.join(a, *parts)]. *)
Definition os_path_join `{OsPath} (a : string) (parts : list string) : string :=
  fold_left join2 parts a.

(** What a call of [get_path_to_datafile] reads: the environment, the
    module's [__file__] and which paths exist. *)
Record Env : Type := {
  environ : gmap string string;
  module_file : string;
  path_exists : string -> bool
}.

Section locator.
Context `{OsPath} (env : Env).

Definition get_project_root : string :=
  dirname (dirname (abspath (module_file env))).

(** Lines 55-72: the ordered search roots. *)
Definition search_roots : list string :=
  let root_dir := get_project_root in
  let package_root := dirname root_dir in
  let workspace_root := dirname package_root in
  let override_root := environ env !! "KERAS_CV_DATA_ROOT" in
  (match override_root with
   | Some r => if Py.nonempty r then [r] else []
   | None => []
   end)
  ++ [root_dir; package_root;
      os_path_join workspace_root ["bazel-bin"; "keras_cv"; "src"]].

Definition not_found_message (path : string) (attempted_paths : list string) : string :=
  "Unable to locate resource '" +:+ path +:+ "'. Looked in: "
    +:+ Py.join ", " attempted_paths.

(** Lines 74-90: the loop over the roots, with the list of attempted
    paths as accumulator. *)
Fixpoint search_loop (path normalized_path : string)
    (roots attempted_paths : list string) : result string :=
  match roots with
  | [] => Raise (FileNotFoundError (not_found_message path attempted_paths))
  | candidate_root :: rest =>
      if negb (Py.nonempty candidate_root) then
        search_loop path normalized_path rest attempted_paths
      else
        let candidate := normpath (os_path_join candidate_root [normalized_path]) in
        let attempted_paths := attempted_paths ++ [candidate] in
        if path_exists env candidate then Ok candidate
        else search_loop path normalized_path rest attempted_paths
  end.

Definition get_path_to_datafile (path : string) : result string :=
  let normalized_path := Py.replace "/" sep path in
  search_loop path normalized_path search_roots [].

End locator.

(** [LazySO]: the relative path and the cached library handle. *)
Record LazySO (Lib : Type) : Type := {
  relative_path : string;
  _ops : option Lib
}.
Arguments relative_path {Lib} _.
Arguments _ops {Lib} _.

(** The module global [abi_warning_already_raised] and the warnings
    passed to [warnings.warn] so far. *)
Record Globals : Type := {
  abi_warning_already_raised : bool;
  warnings : list string
}.

Section lazy_so.
Context `{OsPath} (env : Env).
(** TensorFlow: its version string and [tf.load_op_library]. *)
Context {Lib : Type} (tf_version : string)
        (load_op_library : string -> result Lib).

Definition abi_is_compatible : bool :=
  Py.startswith TF_VERSION_FOR_ABI_COMPATIBILITY tf_version.

Definition abi_warning : string :=
  "You are currently using TensorFlow " +:+ tf_version +:+
  " and trying to load a KerasCV custom op." +:+ String newline
  ("KerasCV has compiled its custom ops against TensorFlow " +:+
   TF_VERSION_FOR_ABI_COMPATIBILITY +:+
   ", and there are no compatibility guarantees between the two versions."
   +:+ String newline
  ("This means that you might get segfaults when loading the custom " +:+
   "op, or other kind of low-level errors." +:+ String newline
  ("If you do, do not file an issue on Github. " +:+
   "This is a known limitation."))).

Definition display_warning_if_incompatible (g : Globals) : Globals :=
  if abi_warning_already_raised g || abi_is_compatible then g
  else {| abi_warning_already_raised := true;
          warnings := warnings g ++ [abi_warning] |}.

(** The [ops] property: the handle and the globals after the access,
    and the value returned or the exception raised. *)
Definition ops (self : LazySO Lib) (g : Globals)
    : LazySO Lib * Globals * result Lib :=
  match _ops self with
  | Some lib => (self, g, Ok lib)
  | None =>
      let g := display_warning_if_incompatible g in
      match get_path_to_datafile env (relative_path self) with
      | Raise e => (self, g, Raise e)
      | Ok p =>
          match load_op_library p with
          | Raise e => (self, g, Raise e)
          | Ok lib =>
              ({| relative_path := relative_path self; _ops := Some lib |},
               g, Ok lib)
          end
      end
  end.

End lazy_so.

End resource_loader.

(** ** posixpath: the instance of [OsPath] on POSIX hosts *)

Module posixpath.

(** [s.split("/")]. *)
Fixpoint split_slash (cur s : string) : list string :=
  match s with
  | EmptyString => [String.rev cur]
  | String c t =>
      if Ascii.eqb c "/" then String.rev cur :: split_slash "" t
      else split_slash (String c cur) t
  end.

Fixpoint lstrip_slash (s : string) : string :=
  match s with
  | String c t => if Ascii.eqb c "/" then lstrip_slash t else s
  | EmptyString => ""
  end.

(** Drops the characters before the first slash. *)
Fixpoint from_first_slash (s : string) : string :=
  match s with
  | String c t => if Ascii.eqb c "/" then s else from_first_slash t
  | EmptyString => ""
  end.

Definition join2 (a b : string) : string :=
  if Py.startswith "/" b then b
  else if negb (Py.nonempty a) || Py.endswith "/" a then a +:+ b
  else a +:+ "/" +:+ b.

Definition dirname (p : string) : string :=
  let head_rev := from_first_slash (String.rev p) in
  if Py.nonempty (lstrip_slash head_rev)
  then String.rev (lstrip_slash head_rev)
  else String.rev head_rev.

Definition norm_step (initial_slashes : nat) (new_comps : list string)
    (comp : string) : list string :=
  if bool_decide (comp = "") || bool_decide (comp = ".") then new_comps
  else if negb (bool_decide (comp = ".."))
          || (bool_decide (initial_slashes = 0) && bool_decide (new_comps = []))
          || bool_decide (last new_comps = Some "..")
  then new_comps ++ [comp]
  else removelast new_comps.

Definition normpath (path : string) : string :=
  if negb (Py.nonempty path) then "."
  else
    let initial_slashes :=
      if Py.startswith "/" path then
        if Py.startswith "//" path && negb (Py.startswith "///" path)
        then 2 else 1
      else 0 in
    let comps := fold_left (norm_step initial_slashes) (split_slash "" path) [] in
    let path := Py.join "/" comps in
    let path := match initial_slashes with
                | 0 => path
                | 1 => "/" +:+ path
                | _ => "//" +:+ path
                end in
    if Py.nonempty path then path else ".".

Definition abspath (cwd path : string) : string :=
  if Py.startswith "/" path then normpath path
  else normpath (join2 cwd path).

Definition os_path (cwd : string) : resource_loader.OsPath := {|
  resource_loader.sep := "/";
  resource_loader.abspath := abspath cwd;
  resource_loader.dirname := dirname;
  resource_loader.join2 := join2;
  resource_loader.normpath := normpath
|}.

End posixpath.

(** ** The regular expression of pip_build.py

    [__version__\s*=\s*["'](.+?)["']], matched the way [re] does: the two
    [\s*] are greedy (what follows them is not a space, so no backtracking
    changes the outcome) and the group is lazy: one character that is not a
    newline, then as few more as reach a quote. *)

Module Re.

(** [\s] on the code points below 256. *)
Definition is_space (c : ascii) : bool :=
  let n := Ascii.nat_of_ascii c in
  ((9 <=? n) && (n <=? 13)) || ((28 <=? n) && (n <=? 32))
  || (n =? 133) || (n =? 160).

Definition is_quote (c : ascii) : bool :=
  Ascii.eqb c dquote || Ascii.eqb c squote.

Definition is_newline (c : ascii) : bool := Ascii.eqb c newline.

Fixpoint strip_prefix (p s : string) : option string :=
  match p, s with
  | EmptyString, _ => Some s
  | String a p', String b s' =>
      if Ascii.eqb a b then strip_prefix p' s' else None
  | String _ _, EmptyString => None
  end.

Fixpoint skip_space (s : string) : string :=
  match s with
  | String c t => if is_space c then skip_space t else s
  | EmptyString => ""
  end.

(** The rest of the lazy group: the characters before the first quote and
    what follows that quote; no match when a newline or the end of the
    text comes first. *)
Fixpoint lazy_group (s : string) : option (string * string) :=
  match s with
  | EmptyString => None
  | String c t =>
      if is_quote c then Some ("", t)
      else if is_newline c then None
      else match lazy_group t with
           | Some (g, r) => Some (String c g, r)
           | None => None
           end
  end.

(** A match that starts at the first character of [s]: group 1 and the
    text after the match. *)
Definition match_version (s : string) : option (string * string) :=
  match strip_prefix "__version__" s with
  | None => None
  | Some s1 =>
      match skip_space s1 with
      | String "=" s2 =>
          match skip_space s2 with
          | String q (String c s3) =>
              if is_quote q && negb (is_newline c) then
                match lazy_group s3 with
                | Some (g, r) => Some (String c g, r)
                | None => None
                end
              else None
          | _ => None
          end
      | _ => None
      end
  end.

(** [re.search(pattern, s)], reduced to group 1 of the leftmost match. *)
Fixpoint search (s : string) : option string :=
  match match_version s with
  | Some (g, _) => Some g
  | None =>
      match s with
      | EmptyString => None
      | String _ t => search t
      end
  end.

(** [re.sub(pattern, repl, s)] for a replacement without escapes: every
    match, left to right, becomes [repl].  [skip] counts the characters of
    the current match still to be dropped. *)
Fixpoint sub_from (skip : nat) (repl s : string) : string :=
  match s with
  | EmptyString => ""
  | String c t =>
      match skip with
      | S k => sub_from k repl t
      | O =>
          match match_version s with
          | Some (_, r) =>
              repl +:+ sub_from (String.length t - String.length r) repl t
          | None => String c (sub_from 0 repl t)
          end
      end
  end.

Definition has_escape (repl : string) : bool :=
  Py.contains (String backslash "") repl.

End Re.
(** ** pip_build.py *)

Module pip_build.

Definition package : string := "keras_cv".
Definition dist_directory : string := "dist".
Definition wheels_directory : string := "wheels".

(** A resolved [pathlib.Path]: the components below the root.  The paths
    the script works with come from [resolve()], which is the identity on
    them. *)
Abbreviation path := (list string) (only parsing).

(** [p / name]. *)
Definition div (p : path) (name : string) : path := p ++ [name].
Infix "//" := div (at level 40, left associativity).

(** [str(p)]. *)
Definition str (p : path) : string := "/" +:+ Py.join "/" p.

(** [p.name] and [p.parent]. *)
Definition path_name (p : path) : string := default "" (last p).
Definition parent (p : path) : path := removelast p.

(** An entry of a directory listing: what [glob], [stat] and [copy2] see. *)
Record DirEntry : Type := {
  name : string;
  st_mtime : Z;
  data : string
}.

(** The file system as the builder uses it: text files by path, and the
    listing of each directory in the order the host enumerates it. *)
Record FS : Type := {
  files : gmap (list string) string;
  dirs : gmap (list string) (list DirEntry)
}.

Record command : Type := {
  argv : list string;
  env : option (gmap string string);
  cwd : option string
}.

(** How [subprocess.run] ends: the child's return code, an interrupt
    while waiting, or no child at all. *)
Inductive cmd_result : Type :=
| Exited (returncode : Z)
| Interrupted
| NotStarted.

Inductive event : Type :=
| EvRead (p : list string)
| EvWrite (p : list string) (content : string)
| EvMkdir (p : list string)
| EvCopy (src dst : list string)
| EvPrint (line : string)
| EvRun (cmd : command).

Record datetime : Type := {
  year : nat;
  month : nat;
  day : nat;
  hour : nat
}.

(** The world of one run: the file system, [os.environ], the clock that
    [datetime.now()] reads, and what the script has done so far. *)
Record state : Type := {
  fs : FS;
  os_environ : gmap string string;
  now : datetime;
  log : list event
}.

Definition M (A : Type) : Type := state -> state * result A.

Definition ret {A} (a : A) : M A := fun s => (s, Ok a).

Definition bind {A B} (m : M A) (k : A -> M B) : M B :=
  fun s =>
    match m s with
    | (s', Ok a) => k a s'
    | (s', Raise e) => (s', Raise e)
    end.

Definition raise {A} (e : exn) : M A := fun s => (s, Raise e).

(** [try: body finally: handler]. *)
Definition try_finally {A} (body : M A) (handler : M unit) : M A :=
  fun s =>
    let '(s1, r) := body s in
    match handler s1 with
    | (s2, Ok _) => (s2, r)
    | (s2, Raise e) => (s2, Raise e)
    end.

Declare Scope py_scope.
Delimit Scope py_scope with py.
Notation "x <- m ;; k" := (bind m (fun x => k))
  (at level 100, m at next level, right associativity) : py_scope.
Notation "m ;; k" := (bind m (fun _ => k))
  (at level 100, right associativity) : py_scope.
Local Open Scope py_scope.

Definition emit (e : event) (s : state) : state :=
  {| fs := fs s; os_environ := os_environ s; now := now s;
     log := log s ++ [e] |}.

Definition with_fs (f : FS) (s : state) : state :=
  {| fs := f; os_environ := os_environ s; now := now s; log := log s |}.

Definition print (line : string) : M unit :=
  fun s => (emit (EvPrint line) s, Ok tt).

Definition read_text (p : path) : M string :=
  fun s =>
    match files (fs s) !! p with
    | Some content => (emit (EvRead p) s, Ok content)
    | None => (emit (EvRead p) s, Raise (FileNotFoundError (str p)))
    end.

Definition write_text (p : path) (content : string) : M unit :=
  fun s =>
    (emit (EvWrite p content)
       (with_fs {| files := <[p := content]> (files (fs s));
                   dirs := dirs (fs s) |} s),
     Ok tt).

Definition path_exists (f : FS) (p : path) : bool :=
  bool_decide (is_Some (dirs f !! p)) || bool_decide (is_Some (files f !! p)).

(** [p.mkdir(parents=True, exist_ok=True)]. *)
Definition mkdir (p : path) : M unit :=
  fun s =>
    let s := emit (EvMkdir p) s in
    if bool_decide (is_Some (files (fs s) !! p)) then
      (s, Raise (FileExistsError (str p)))
    else if bool_decide (is_Some (dirs (fs s) !! p)) then (s, Ok tt)
    else
      (with_fs {| files := files (fs s);
                  dirs := <[p := []]> (dirs (fs s)) |} s, Ok tt).

(** [p.glob("*" + suffix)]: the entries of the directory whose name ends
    in [suffix], in listing order. *)
Definition glob (f : FS) (p : path) (suffix : string) : list DirEntry :=
  match dirs f !! p with
  | Some entries => filter (fun e => Is_true (Py.endswith suffix (name e))) entries
  | None => []
  end.

Definition dir_lookup (f : FS) (p : path) : option DirEntry :=
  match dirs f !! parent p with
  | Some entries =>
      List.find (fun e => bool_decide (name e = path_name p)) entries
  | None => None
  end.

(** Puts [e] in a listing, in the place of an entry of the same name. *)
Fixpoint put_entry (e : DirEntry) (entries : list DirEntry) : list DirEntry :=
  match entries with
  | [] => [e]
  | e' :: rest =>
      if bool_decide (name e' = name e) then e :: rest
      else e' :: put_entry e rest
  end.

(** [shutil.copy2(src, dst)]: content and metadata. *)
Definition copy2 (src dst : path) : M unit :=
  fun s =>
    let s := emit (EvCopy src dst) s in
    match dir_lookup (fs s) src, dirs (fs s) !! parent dst with
    | Some e, Some entries =>
        let e' := {| name := path_name dst; st_mtime := st_mtime e;
                     data := data e |} in
        (with_fs {| files := files (fs s);
                    dirs := <[parent dst := put_entry e' entries]> (dirs (fs s)) |} s,
         Ok tt)
    | None, _ => (s, Raise (FileNotFoundError (str src)))
    | _, None => (s, Raise (FileNotFoundError (str dst)))
    end.

(** [strftime("%Y%m%d%H")] of a four-digit year. *)
Definition digit (n : nat) : ascii := Ascii.ascii_of_nat (48 + n mod 10).
Definition pad2 (n : nat) : string :=
  String (digit (n / 10)) (String (digit n) "").
Definition pad4 (n : nat) : string :=
  String (digit (n / 1000)) (String (digit (n / 100)) (pad2 n)).
Definition strftime_YmdH (d : datetime) : string :=
  pad4 (year d) +:+ pad2 (month d) +:+ pad2 (day d) +:+ pad2 (hour d).

(** [sorted(entries, key=mtime, reverse=True)]: descending, entries of
    equal time in their original order. *)
Fixpoint insert_desc (x : DirEntry) (l : list DirEntry) : list DirEntry :=
  match l with
  | [] => [x]
  | y :: l' =>
      if (st_mtime x <? st_mtime y)%Z then y :: insert_desc x l'
      else x :: l
  end.

Definition sorted_desc (l : list DirEntry) : list DirEntry :=
  foldr insert_desc [] l.

(** Lines 70-72: the first wheel whose name contains the version. *)
Fixpoint first_with_version (version : string) (wheels : list DirEntry)
    : option DirEntry :=
  match wheels with
  | [] => None
  | wheel :: rest =>
      if Py.contains version (name wheel) then Some wheel
      else first_with_version version rest
  end.

Definition locate_wheel (f : FS) (wheels_path : path) (version : string)
    : option (list string) :=
  if negb (path_exists f wheels_path) then None
  else
    let wheels := sorted_desc (glob f wheels_path ".whl") in
    match first_with_version version wheels with
    | Some wheel => Some (wheels_path // name wheel)
    | None =>
        match wheels with
        | wheel :: _ => Some (wheels_path // name wheel)
        | [] => None
        end
    end.

Definition version_pattern_error : string :=
  "Unable to parse __version__ from version_utils.py".

Definition parse_version (version_file : path) : M string :=
  content <- read_text version_file ;;
  match Re.search content with
  | None => raise (ValueError version_pattern_error)
  | Some v => ret v
  end.

Section builder.
(** The external programs: what running a command does to the file
    system and how it ends. *)
Context (exec : command -> FS -> FS * cmd_result).
(** [re.sub] on a replacement that holds a backslash escape. *)
Context (sub_with_escapes : string -> string -> result string).

Definition re_sub_version (repl content : string) : M string :=
  if Re.has_escape repl then
    match sub_with_escapes repl content with
    | Ok s => ret s
    | Raise e => raise e
    end
  else ret (Re.sub_from 0 repl content).

(** [subprocess.run(cmd, check=True, env=env, cwd=cwd)]. *)
Definition subprocess_run (cmd : command) : M unit :=
  fun s =>
    let '(f, r) := exec cmd (fs s) in
    let s := emit (EvRun cmd) (with_fs f s) in
    match r with
    | Exited rc =>
        if (rc =? 0)%Z then (s, Ok tt)
        else (s, Raise (CalledProcessError rc (argv cmd)))
    | Interrupted => (s, Raise KeyboardInterrupt)
    | NotStarted => (s, Raise (FileNotFoundError (default "" (head (argv cmd)))))
    end.

Definition run_command (cmd : command) : M unit :=
  print ("Running: " +:+ Py.join " " (argv cmd)) ;;
  subprocess_run cmd.

Definition version_file_of (root : path) : list string :=
  root // package // "src" // "version_utils.py".
Definition setup_file_of (root : path) : list string :=
  root // "setup.py".

(** Lines 41-54: the rewriting of the two files, and the version it
    yields. *)
Definition apply_overrides (version_file setup_file : path)
    (original_version_content original_setup_content version : string)
    : M string :=
  timestamp <- (fun s => (s, Ok (strftime_YmdH (now s)))) ;;
  let updated_version := version +:+ ".dev" +:+ timestamp in
  new_version_content <-
    re_sub_version ("__version__ = " +:+ DQ +:+ updated_version +:+ DQ)
      original_version_content ;;
  write_text version_file new_version_content ;;
  write_text setup_file
    (Py.replace ("name=" +:+ DQ +:+ "keras-cv" +:+ DQ)
                ("name=" +:+ DQ +:+ "keras-cv-nightly" +:+ DQ)
                original_setup_content) ;;
  ret updated_version.

(** Lines 57-59: the [finally] block. *)
Definition restore (is_nightly : bool) (version_file setup_file : path)
    (original_version_content original_setup_content : string) : M unit :=
  if is_nightly then
    write_text version_file original_version_content ;;
    write_text setup_file original_setup_content
  else ret tt.

(** [with nightly_overrides(root, is_nightly) as version: body]: the
    generator runs to its [yield], the body of the [with] runs where the
    generator is suspended, inside its [try], and an exception of the
    body is raised at the [yield].  The value is the version bound by
    [as]. *)
Definition nightly_overrides {A} (root : path) (is_nightly : bool)
    (body : string -> M A) : M string :=
  let version_file := version_file_of root in
  let setup_file := setup_file_of root in
  original_version_content <- read_text version_file ;;
  original_setup_content <- read_text setup_file ;;
  version <- parse_version version_file ;;
  try_finally
    (updated_version <-
       (if is_nightly then
          apply_overrides version_file setup_file
            original_version_content original_setup_content version
        else ret version) ;;
     body updated_version ;;
     ret updated_version)
    (restore is_nightly version_file setup_file
       original_version_content original_setup_content).

(** Lines 82-91: the body of the [with]. *)
Definition run_build_tools (root_path : path) (version : string) : M unit :=
  let cwd := str root_path in
  run_command {| argv := ["python3"; "build_deps/configure.py"];
                 env := None; cwd := Some cwd |} ;;
  run_command {| argv := ["bazel"; "build"; "build_pip_pkg"];
                 env := None; cwd := Some cwd |} ;;
  environ <- (fun s => (s, Ok (os_environ s))) ;;
  let environ := <["BUILD_WITH_CUSTOM_OPS" := "true"]> environ in
  run_command {| argv := [str (root_path // "bazel-bin" // "build_pip_pkg");
                          wheels_directory];
                 env := Some environ; cwd := Some cwd |}.

(** Lines 77-91: up to the end of the [with]. *)
Definition build_wheels (root_path : path) (is_nightly : bool) : M string :=
  let wheels_path := root_path // wheels_directory in
  mkdir wheels_path ;;
  nightly_overrides root_path is_nightly (run_build_tools root_path).

(** Lines 93-103: from [locate_wheel] to the end. *)
Definition collect_wheel (root_path : path) (version : string)
    : M (option (list string)) :=
  let wheels_path := root_path // wheels_directory in
  wheel <- (fun s => (s, Ok (locate_wheel (fs s) wheels_path version))) ;;
  match wheel with
  | None => print "Build failed. No wheel found." ;; ret None
  | Some wheel =>
      let dist_path := root_path // dist_directory in
      mkdir dist_path ;;
      let target := dist_path // path_name wheel in
      copy2 wheel target ;;
      print ("Build successful. Wheel file available at " +:+ str target) ;;
      ret (Some target)
  end.

Definition build (root_path : path) (is_nightly : bool)
    : M (option (list string)) :=
  version <- build_wheels root_path is_nightly ;;
  collect_wheel root_path version.

Definition install_whl (whl_path : path) : M unit :=
  run_command {| argv := ["pip3"; "install"; "--force-reinstall";
                          "--no-dependencies"; str whl_path];
                 env := None; cwd := None |}.

(** How the script ends. *)
Inductive termination : Type :=
| Finished
| SystemExit (code : Z)
| Uncaught (e : exn).

(** The [__main__] block, for the two flags and the script's directory. *)
Definition main (args_install args_nightly : bool) (root : path)
    : state -> state * termination :=
  fun s =>
    match build root args_nightly s with
    | (s, Raise (CalledProcessError returncode _)) =>
        let '(s, _) :=
          print ("Command failed with exit code " +:+ pretty returncode) s in
        (s, SystemExit returncode)
    | (s, Raise e) => (s, Uncaught e)
    | (s, Ok None) => (s, Finished)
    | (s, Ok (Some wheel_path)) =>
        if args_install then
          match install_whl wheel_path s with
          | (s, Ok _) => (s, Finished)
          | (s, Raise e) => (s, Uncaught e)
          end
        else (s, Finished)
    end.

(** The exit status the parent process observes: [sys.exit(n)] keeps the
    low eight bits of [n], a traceback ends the interpreter with status
    1, and an interrupt shows as 128 + SIGINT. *)
Definition exit_status (t : termination) : Z :=
  match t with
  | Finished => 0
  | SystemExit code => code mod 256
  | Uncaught KeyboardInterrupt => 130
  | Uncaught _ => 1
  end.

End builder.

End pip_build.

(** ** Notions the specification uses *)

Module locator_spec.
Import resource_loader.

Section candidates.
Context `{OsPath} (env : Env).

(** The candidate of a search root for a requested path. *)
Definition candidate_of (path root : string) : string :=
  normpath (os_path_join root [Py.replace "/" sep path]).

(** The candidate paths of a request, in search order: one for each
    root that is not empty. *)
Definition candidates (path : string) : list string :=
  map (candidate_of path)
      (List.filter Py.nonempty (search_roots env)).
End candidates.

(** Line 26: the globals when the module has just been imported. *)
Definition initial_globals : Globals :=
  {| abi_warning_already_raised := false; warnings := [] |}.


Section client.
Context `{OsPath} (env : Env) {Lib : Type} (tf_version : string)
        (load_op_library : string -> result Lib).

(** A client that reads the [ops] property of the handles of [store],
    one access for each index of [accesses], in order. *)
Fixpoint access_all (accesses : list nat) (store : list (LazySO Lib))
    (g : Globals) : list (LazySO Lib) * Globals :=
  match accesses with
  | [] => (store, g)
  | i :: rest =>
      match store !! i with
      | None => access_all rest store g
      | Some self =>
          let '(self', g', _) := ops env tf_version load_op_library self g in
          access_all rest (<[i := self']> store) g'
      end
  end.
End client.

(** A source checkout on a POSIX host with the override root set. *)
Definition sample_env (present : list string) : Env :=
  {| environ := {[ "KERAS_CV_DATA_ROOT" := "/opt/data" ]};
     module_file := "/ws/keras_cv/src/utils/resource_loader.py";
     path_exists := fun p => bool_decide (p ∈ present) |}.

End locator_spec.

Module Re_spec.

Fixpoint all_space (s : string) : bool :=
  match s with
  | EmptyString => true
  | String c t => Re.is_space c && all_space t
  end.

Fixpoint no_newline (s : string) : bool :=
  match s with
  | EmptyString => true
  | String c t => negb (Re.is_newline c) && no_newline t
  end.

(** [m] is a text the pattern matches as a whole, with [g] as group 1:
    the name, spaces, the equals sign, spaces, a quote, one character or
    more without a newline, and a quote. *)
Definition is_version_match (m g : string) : Prop :=
  exists (ws1 ws2 : string) (q1 q2 : ascii),
    m = "__version__" +:+ ws1 +:+ "=" +:+ ws2 +:+ String q1 (g +:+ String q2 "")
    /\ all_space ws1 = true /\ all_space ws2 = true
    /\ Re.is_quote q1 = true /\ Re.is_quote q2 = true
    /\ g <> "" /\ no_newline g = true.

(** The pattern matches somewhere in [content]. *)
Definition has_match (content : string) : Prop :=
  exists pre m g post : string,
    content = pre +:+ m +:+ post /\ is_version_match m g.

End Re_spec.

(** ** A sample checkout

    A repository at [/ws] with version 1.2.3, and build tools that leave
    the sources alone: the packaging tool reads the version file and puts
    one wheel of that version in [wheels]. *)

Module sample.
Import pip_build.

Definition root : list string := ["ws"].

Definition version_content : string :=
  "# version" +:+ String newline
  ("__version__ = " +:+ DQ +:+ "1.2.3" +:+ DQ +:+ String newline "").

Definition setup_content : string :=
  "setup(name=" +:+ DQ +:+ "keras-cv" +:+ DQ +:+ ", packages=[])".

Definition package_wheel (f : FS) : FS :=
  match files f !! version_file_of root with
  | Some content =>
      match Re.search content with
      | Some v =>
          {| files := files f;
             dirs := <[root // wheels_directory :=
                        [{| name := "keras_cv-" +:+ v +:+ "-py3-none-any.whl";
                            st_mtime := 50; data := "wheel" |}]]> (dirs f) |}
      | None => f
      end
  | None => f
  end.

(** The four tools end as [rcs] says (configure, bazel, packaging, pip), a
    missing entry meaning success. *)
Definition exec (rcs : list cmd_result) (cmd : command) (f : FS)
    : FS * cmd_result :=
  let tool := default "" (head (argv cmd)) in
  if bool_decide (tool = "python3") then (f, default (Exited 0) (rcs !! 0))
  else if bool_decide (tool = "bazel") then (f, default (Exited 0) (rcs !! 1))
  else if bool_decide (tool = "pip3") then (f, default (Exited 0) (rcs !! 3))
  else (package_wheel f, default (Exited 0) (rcs !! 2)).

(** Build tools that succeed and do nothing. *)
Definition idle (cmd : command) (f : FS) : FS * cmd_result := (f, Exited 0).

(** No replacement with an escape is accepted. *)
Definition no_escapes (repl content : string) : result string :=
  Raise (ReError "bad escape").

Definition start : state :=
  {| fs := {| files := {[ version_file_of root := version_content;
                          setup_file_of root := setup_content ]};
              dirs := ∅ |};
     os_environ := ∅;
     now := {| year := 2026; month := 11; day := 3; hour := 7 |};
     log := [] |}.

End sample.

Module wheel_spec.
Import pip_build.

Definition release_wheel (mtime : Z) : DirEntry :=
  {| name := "pkg-1.2.3.whl"; st_mtime := mtime; data := "" |}.

Definition dev_wheel (mtime : Z) : DirEntry :=
  {| name := "pkg-1.2.3.dev99.whl"; st_mtime := mtime; data := "" |}.

(** A file system whose directory [wheels_path] lists exactly [entries]. *)
Definition wheels_dir (wheels_path : list string) (entries : list DirEntry)
    : FS :=
  {| files := ∅; dirs := {[ wheels_path := entries ]} |}.

(** Newest first. *)
Definition newer_first (x y : DirEntry) : Prop := (st_mtime y <= st_mtime x)%Z.

End wheel_spec.

Module builder_spec.
Import pip_build.

(** The state after the script has logged [events]. *)
Definition emit_all (events : list event) (s : state) : state :=
  {| fs := fs s; os_environ := os_environ s; now := now s;
     log := log s ++ events |}.

(** A read of one of the two source files of [root]. *)
Definition is_source_read (root : list string) (e : event) : Prop :=
  e = EvRead (version_file_of root) \/ e = EvRead (setup_file_of root).


(** The two source files of [root] have the same content in both states. *)
Definition same_sources (root : list string) (s s' : state) : Prop :=
  files (fs s') !! version_file_of root = files (fs s) !! version_file_of root
  /\ files (fs s') !! setup_file_of root = files (fs s) !! setup_file_of root.

(** A computation that leaves the two source files of [root] with the
    content they had. *)
Definition keeps_sources {A} (root : list string) (m : M A) : Prop :=
  forall s : state, same_sources root s (m s).1.



(** The value of a [with] statement whose body ended in [r]. *)
Definition yielded {A} (v : string) (r : result A) : result string :=
  match r with
  | Ok _ => Ok v
  | Raise e => Raise e
  end.

End builder_spec.

(** ** Further notions: the locator and the lazy handle *)

Module locator_more_spec.
Import resource_loader.

(** The same host with other environment variables. *)
Definition with_environ (vars : gmap string string) (env : Env) : Env :=
  {| environ := vars; module_file := module_file env;
     path_exists := path_exists env |}.

(** A loader that knows one library. *)
Definition sample_load (p : string) : result string :=
  if bool_decide (p = "/opt/data/custom_ops/foo.so") then Ok ("lib:" +:+ p)
  else Raise (OpLoadError p).

(** The sample host with the override root set to the empty string. *)
Definition empty_override_env : Env :=
  with_environ {[ "KERAS_CV_DATA_ROOT" := "" ]} (locator_spec.sample_env []).

Definition sample_handle : LazySO string :=
  {| relative_path := "custom_ops/foo.so"; _ops := None |}.

End locator_more_spec.

(** ** Further notions: the builder *)

Module builder_more_spec.
Import pip_build.

Fixpoint no_quote (s : string) : bool :=
  match s with
  | EmptyString => true
  | String c t => negb (Re.is_quote c) && no_quote t
  end.

(** The commands a log records, in the order they were run. *)
Fixpoint runs_of (l : list event) : list command :=
  match l with
  | [] => []
  | EvRun cmd :: rest => cmd :: runs_of rest
  | _ :: rest => runs_of rest
  end.

(** Lines 83-91: the three commands of a build, for the environment
    [environ] of the script. *)
Definition build_commands (root_path : list string)
    (environ : gmap string string) : list command :=
  [ {| argv := ["python3"; "build_deps/configure.py"];
       env := None; cwd := Some (str root_path) |};
    {| argv := ["bazel"; "build"; "build_pip_pkg"];
       env := None; cwd := Some (str root_path) |};
    {| argv := [str (root_path // "bazel-bin" // "build_pip_pkg");
                wheels_directory];
       env := Some (<["BUILD_WITH_CUSTOM_OPS" := "true"]> environ);
       cwd := Some (str root_path) |} ].

(** Lines 107-115: the command of [install_whl]. *)
Definition pip_command (whl_path : list string) : command :=
  {| argv := ["pip3"; "install"; "--force-reinstall"; "--no-dependencies";
              str whl_path];
     env := None; cwd := None |}.

(** In the environment [environ], [m] runs a prefix of the commands
    [expected], in their order, and all of them when it returns. *)
Definition runs_within {A} (environ : gmap string string)
    (expected : list command) (m : M A) : Prop :=
  forall s : state,
    os_environ s = environ ->
    exists cs : list command,
      runs_of (log (m s).1) = runs_of (log s) ++ cs
      /\ os_environ (m s).1 = environ
      /\ cs `prefix_of` expected
      /\ (forall a, (m s).2 = Ok a -> cs = expected).

(** When [m] raises [CalledProcessError], the status is not zero and the
    command named by the exception is the last command that was run. *)
Definition stops_at_failure {A} (environ : gmap string string) (m : M A)
    : Prop :=
  forall (s : state) (rc : Z) (failed : list string),
    os_environ s = environ ->
    (m s).2 = Raise (CalledProcessError rc failed) ->
    rc <> 0%Z
    /\ exists (before : list command) (c : command),
         runs_of (log (m s).1) = runs_of (log s) ++ before ++ [c]
         /\ argv c = failed.

(** [re.sub] does not raise the exception of [subprocess]. *)
Definition no_process_error
    (sub_with_escapes : string -> string -> result string) : Prop :=
  forall (repl content : string) (rc : Z) (failed : list string),
    sub_with_escapes repl content <> Raise (CalledProcessError rc failed).

End builder_more_spec.

(** ** Further notions: early failures and the timestamp *)

Module build_more_spec.
Import pip_build.

(** The sample checkout with other text files. *)
Definition with_files (fl : gmap (list string) string) (s : state) : state :=
  {| fs := {| files := fl; dirs := dirs (fs s) |};
     os_environ := os_environ s; now := now s; log := log s |}.

(** A version file without a declaration. *)
Definition unversioned : state :=
  with_files {[ version_file_of sample.root := "# no version here";
                setup_file_of sample.root := sample.setup_content ]}
    sample.start.

(** A checkout without [setup.py]. *)
Definition without_setup : state :=
  with_files {[ version_file_of sample.root := sample.version_content ]}
    sample.start.

(** A [setup.py] that spells the name with single quotes. *)
Definition single_quoted_setup : string :=
  "setup(name=" +:+ String squote ("keras-cv" +:+ String squote ", packages=[])").

(** The fields of a [datetime] as [strftime] prints them in full: a year
    of at most four digits, the others of at most two. *)
Definition fits_fields (d : datetime) : Prop :=
  year d < 100 * 100 /\ month d < 100 /\ day d < 100 /\ hour d < 100.

End build_more_spec.

(** * Properties *)

Module locator_facts.
Import resource_loader locator_spec.

Section facts.
Context `{OsPath} (env : Env).

Lemma search_loop_spec path normalized roots attempted :
  normalized = Py.replace "/" sep path ->
  search_loop env path normalized roots attempted =
    match List.find (path_exists env)
            (map (candidate_of path) (List.filter Py.nonempty roots)) with
    | Some c => Ok c
    | None =>
        Raise (FileNotFoundError
                 (not_found_message path
                    (attempted ++ map (candidate_of path)
                                      (List.filter Py.nonempty roots))))
    end.
Proof.
  intros ->. revert attempted.
  induction roots as [|r roots IH]; intros attempted; simpl.
  - by rewrite app_nil_r.
  - destruct (Py.nonempty r); simpl; [|apply IH].
    unfold candidate_of at 1 3.
    destruct (path_exists env _); [done|].
    rewrite IH. by rewrite <- app_assoc.
Qed.

(** C3. [get_path_to_datafile] returns the first candidate, in search
    order, that exists; when none exists it raises [FileNotFoundError]
    with a message that lists every candidate in search order. *)
Theorem get_path_to_datafile_first_existing (path : string) :
  match List.find (path_exists env) (candidates env path) with
  | Some c => get_path_to_datafile env path = Ok c
  | None =>
      get_path_to_datafile env path =
        Raise (FileNotFoundError
                 ("Unable to locate resource '" +:+ path +:+
                  "'. Looked in: " +:+ Py.join ", " (candidates env path)))
  end.
Proof.
  unfold get_path_to_datafile, candidates.
  rewrite (search_loop_spec path _ _ [] eq_refl). simpl.
  by destruct (List.find _ _).
Qed.

(** C4. With [KERAS_CV_DATA_ROOT] set to a root that is not empty and
    the resource present under it, the result is the path under that
    root, whatever else exists. *)
Theorem override_root_has_priority (path override_root : string) :
  environ env !! "KERAS_CV_DATA_ROOT" = Some override_root ->
  override_root <> "" ->
  path_exists env (candidate_of path override_root) = true ->
  get_path_to_datafile env path = Ok (candidate_of path override_root).
Proof.
  intros Hset Hne Hex.
  unfold get_path_to_datafile.
  rewrite (search_loop_spec path _ _ [] eq_refl).
  unfold search_roots. rewrite Hset.
  destruct override_root as [|c r]; [done|]. simpl.
  by rewrite Hex.
Qed.

End facts.

Lemma override_root_has_priority_witness :
  @get_path_to_datafile (posixpath.os_path "/")
    (sample_env ["/opt/data/custom_ops/foo.so";
                 "/ws/keras_cv/src/custom_ops/foo.so";
                 "/ws/bazel-bin/keras_cv/src/custom_ops/foo.so"])
    "custom_ops/foo.so"
  = Ok "/opt/data/custom_ops/foo.so".
Proof.
  apply (@override_root_has_priority (posixpath.os_path "/")
           (sample_env _) "custom_ops/foo.so" "/opt/data").
  - reflexivity.
  - discriminate.
  - vm_compute. reflexivity.
Defined.

End locator_facts.


Module lazy_so_facts.
Import resource_loader locator_spec.

Section facts.
Context `{OsPath} (env : Env) {Lib : Type} (tf_version : string)
        (load_op_library : string -> result Lib).






End facts.


End lazy_so_facts.


(** ** Strings *)

Module string_facts.

Lemma app_cons (a : ascii) (s t : string) :
  String a s +:+ t = String a (s +:+ t).
Proof. reflexivity. Qed.

Lemma app_empty_l (s : string) : "" +:+ s = s.
Proof. reflexivity. Qed.

Lemma app_empty_r (s : string) : s +:+ "" = s.
Proof. induction s as [|a s IH]; [done|]. by rewrite app_cons, IH. Qed.

Lemma app_assoc (s t u : string) : (s +:+ t) +:+ u = s +:+ (t +:+ u).
Proof. induction s as [|a s IH]; [done|]. by rewrite !app_cons, IH. Qed.


End string_facts.

(** ** The version pattern *)

Module Re_facts.
Import Re Re_spec string_facts.

Lemma strip_prefix_Some (p s r : string) :
  strip_prefix p s = Some r <-> s = p +:+ r.
Proof.
  revert s. induction p as [|a p IH]; intros s; simpl.
  - rewrite app_empty_l. split; congruence.
  - destruct s as [|b s]; [split; [done|by rewrite app_cons]|].
    rewrite app_cons.
    destruct (Ascii.eqb a b) eqn:Hab.
    + apply Ascii.eqb_eq in Hab as ->. rewrite IH. split; congruence.
    + apply Ascii.eqb_neq in Hab. split; [done|congruence].
Qed.

Lemma skip_space_split (s : string) :
  exists ws, s = ws +:+ skip_space s /\ all_space ws = true.
Proof.
  induction s as [|c s (ws & Heq & Hws)]; simpl.
  - by exists "".
  - destruct (is_space c) eqn:Hc.
    + exists (String c ws). rewrite app_cons, <- Heq. simpl. by rewrite Hc, Hws.
    + by exists "".
Qed.

Lemma skip_space_app (ws : string) (c : ascii) (r : string) :
  all_space ws = true -> is_space c = false ->
  skip_space (ws +:+ String c r) = String c r.
Proof.
  intros Hws Hc. induction ws as [|a ws IH].
  - rewrite app_empty_l. simpl. by rewrite Hc.
  - simpl in Hws. apply andb_true_iff in Hws as [Ha Hws].
    rewrite app_cons. simpl. rewrite Ha. by apply IH.
Qed.

Lemma lazy_group_Some (s g r : string) :
  lazy_group s = Some (g, r) ->
  exists q, s = g +:+ String q r /\ is_quote q = true /\ no_newline g = true.
Proof.
  revert g r. induction s as [|c s IH]; intros g r; simpl; [done|].
  destruct (is_quote c) eqn:Hq.
  - intros [= <- <-]. by exists c.
  - destruct (is_newline c) eqn:Hn; [done|].
    destruct (lazy_group s) as [[g' r']|]; [|done].
    intros [= <- <-]. destruct (IH g' r' eq_refl) as (q & -> & Hq' & Hg').
    exists q. rewrite app_cons. simpl. by rewrite Hn, Hg'.
Qed.

Lemma lazy_group_complete (g : string) (q : ascii) (post : string) :
  no_newline g = true -> is_quote q = true ->
  exists g' r', lazy_group (g +:+ String q post) = Some (g', r')
                /\ String.length g' <= String.length g.
Proof.
  intros Hg Hq. induction g as [|c g IH].
  - rewrite app_empty_l. simpl. rewrite Hq. exists "", post. split; [done|simpl; lia].
  - simpl in Hg. apply andb_true_iff in Hg as [Hc Hg].
    rewrite app_cons. simpl.
    destruct (is_quote c); [exists "", (g +:+ String q post); split; [done|simpl; lia]|].
    apply negb_true_iff in Hc. rewrite Hc.
    destruct (IH Hg) as (g' & r' & -> & Hlen).
    exists (String c g'), r'. split; [done|simpl; lia].
Qed.

Lemma is_space_eq : is_space "=" = false.
Proof. reflexivity. Qed.

Lemma is_space_quote (q : ascii) : is_quote q = true -> is_space q = false.
Proof.
  unfold is_quote. intros [Hq|Hq]%orb_true_iff; apply Ascii.eqb_eq in Hq as ->;
    reflexivity.
Qed.

(** A match found at the start of [s] is a match of the pattern. *)
Lemma match_version_sound (s g r : string) :
  match_version s = Some (g, r) ->
  exists m, s = m +:+ r /\ is_version_match m g.
Proof.
  unfold match_version.
  destruct (strip_prefix "__version__" s) as [s1|] eqn:Hs1; [|done].
  apply strip_prefix_Some in Hs1 as ->.
  destruct (skip_space_split s1) as (ws1 & Hs1 & Hws1).
  destruct (skip_space s1) as [|e s2]; [done|].
  destruct (Ascii.eqb e "=") eqn:He; cycle 1.
  { apply Ascii.eqb_neq in He.
    destruct e as [[] [] [] [] [] [] [] []]; try done. }
  apply Ascii.eqb_eq in He as ->.
  destruct (skip_space_split s2) as (ws2 & Hs2 & Hws2).
  destruct (skip_space s2) as [|q [|c s3]]; [done..|].
  destruct (is_quote q) eqn:Hq; [|done]. simpl.
  destruct (is_newline c) eqn:Hc; [done|]. simpl.
  destruct (lazy_group s3) as [[g' r']|] eqn:Hs3; [|done].
  intros [= <- <-].
  apply lazy_group_Some in Hs3 as (q2 & -> & Hq2 & Hg').
  exists ("__version__" +:+ ws1 +:+ "=" +:+ ws2 +:+
          String q (String c g' +:+ String q2 "")).
  split.
  - rewrite Hs1, Hs2. rewrite !app_assoc, !app_cons, !app_assoc.
    by rewrite !app_cons, app_empty_l.
  - exists ws1, ws2, q, q2. repeat split; try done.
    simpl. by rewrite Hc, Hg'.
Qed.

(** Where the pattern matches, a match is found, and its group is no
    longer than the group of the given match. *)
Lemma match_version_complete (m g post : string) :
  is_version_match m g ->
  exists g' r', match_version (m +:+ post) = Some (g', r')
                /\ String.length g' <= String.length g.
Proof.
  intros (ws1 & ws2 & q1 & q2 & -> & Hws1 & Hws2 & Hq1 & Hq2 & Hne & Hg).
  unfold match_version.
  rewrite !app_assoc.
  assert (strip_prefix "__version__"
            ("__version__" +:+ ws1 +:+ "=" +:+ ws2 +:+
             String q1 (g +:+ String q2 "") +:+ post)
          = Some (ws1 +:+ "=" +:+ ws2 +:+
                  String q1 (g +:+ String q2 "") +:+ post)) as ->.
  { by apply strip_prefix_Some. }
  rewrite (app_cons "=" ""), app_empty_l.
  rewrite skip_space_app by done.
  rewrite app_cons, skip_space_app by (done || by apply is_space_quote).
  destruct g as [|c g]; [done|].
  simpl in Hg. apply andb_true_iff in Hg as [Hc Hg].
  rewrite !app_cons, Hq1, Hc. simpl.
  rewrite app_assoc, app_cons, app_empty_l.
  destruct (lazy_group_complete g q2 post Hg Hq2) as (g' & r' & -> & Hlen).
  exists (String c g'), r'. split; [done|simpl; lia].
Qed.

(** [search] returns group 1 of the leftmost match, the shortest one that
    starts there. *)
Lemma search_leftmost (s g : string) :
  search s = Some g ->
  exists pre m post,
    s = pre +:+ m +:+ post /\ is_version_match m g /\
    match_version (m +:+ post) = Some (g, post) /\
    forall pre' m' g' post',
      s = pre' +:+ m' +:+ post' -> is_version_match m' g' ->
      String.length pre <= String.length pre' /\
      (pre' = pre -> String.length g <= String.length g').
Proof.
  induction s as [|c s IH]; simpl; [done|].
  destruct (match_version (String c s)) as [[g0 r]|] eqn:Hm.
  - intros [= ->]. pose proof Hm as (m & Hs & Hmg)%match_version_sound.
    exists "", m, r. rewrite app_empty_l. split; [done|]. split; [done|].
    split; [by rewrite <- Hs|].
    intros pre' m' g' post' Hs' Hmg'. split; [simpl; lia|].
    intros ->. rewrite app_empty_l in Hs'.
    destruct (match_version_complete m' g' post' Hmg') as (g1 & r1 & Hm1 & Hlen).
    rewrite <- Hs', Hm in Hm1. by injection Hm1 as -> ->.
  - intros (pre & m & post & -> & Hmg & Hmp & Hleft)%IH.
    exists (String c pre), m, post. split; [done|]. split; [done|].
    split; [done|].
    intros pre' m' g' post' Hs' Hmg'.
    destruct pre' as [|c' pre'].
    + rewrite app_empty_l in Hs'.
      destruct (match_version_complete m' g' post' Hmg') as (g1 & r1 & Hm1 & _).
      rewrite <- Hs', Hm in Hm1. done.
    + rewrite !app_cons in Hs'. injection Hs' as -> Hs'.
      destruct (Hleft pre' m' g' post' Hs' Hmg') as [Hle Hlazy].
      split; [simpl; lia|]. intros [= ->]. by apply Hlazy.
Qed.

Lemma search_sound (s g : string) :
  search s = Some g ->
  exists pre m post, s = pre +:+ m +:+ post /\ is_version_match m g.
Proof.
  intros (pre & m & post & Hs & Hmg & _)%search_leftmost.
  by exists pre, m, post.
Qed.

Lemma search_complete (s : string) :
  has_match s -> exists g, search s = Some g.
Proof.
  intros (pre & m & g & post & -> & Hmg).
  induction pre as [|c pre IH].
  - rewrite app_empty_l.
    destruct (match_version_complete m g post Hmg) as (g' & r' & Hm & _).
    exists g'. destruct (m +:+ post); [done|]. simpl. by rewrite Hm.
  - rewrite app_cons. simpl.
    destruct (match_version _) as [[g' r']|]; [by exists g'|done].
Qed.

Lemma search_None (s : string) : search s = None <-> ~ has_match s.
Proof.
  split.
  - intros Hnone [g Hg]%search_complete. congruence.
  - intros Hno. destruct (search s) as [g|] eqn:Hs; [|done].
    exfalso. apply Hno. apply search_sound in Hs as (pre & m & post & ? & ?).
    by exists pre, m, g, post.
Qed.



End Re_facts.


(** ** parse_version *)

Module parse_version_facts.
Import pip_build Re_spec Re_facts.

Lemma parse_version_result (version_file : list string) (content : string)
    (s : state) :
  files (fs s) !! version_file = Some content ->
  parse_version version_file s =
    (emit (EvRead version_file) s,
     match Re.search content with
     | Some v => Ok v
     | None => Raise (ValueError version_pattern_error)
     end).
Proof.
  intros Hfile. unfold parse_version, bind, read_text. rewrite Hfile.
  by destruct (Re.search content).
Qed.

(** C8. On a version file that can be read, [parse_version] raises
    [ValueError] exactly when the pattern matches nowhere in the content;
    when it matches, the result is group 1 of the leftmost match, the
    shortest that starts there. *)
Theorem parse_version_spec (version_file : list string) (content : string)
    (s : state) :
  files (fs s) !! version_file = Some content ->
  ((exists msg, (parse_version version_file s).2 = Raise (ValueError msg))
   <-> ~ has_match content)
  /\ (has_match content ->
      exists v pre m post,
        (parse_version version_file s).2 = Ok v /\
        content = pre +:+ m +:+ post /\ is_version_match m v /\
        forall pre' m' g' post',
          content = pre' +:+ m' +:+ post' -> is_version_match m' g' ->
          String.length pre <= String.length pre' /\
          (pre' = pre -> String.length v <= String.length g')).
Proof.
  intros Hfile. rewrite (parse_version_result _ _ _ Hfile). simpl. split.
  - rewrite <- search_None.
    destruct (Re.search content) as [v|]; split; try done.
    + by intros [msg ?].
    + intros _. by eexists.
  - intros [v Hv]%search_complete. rewrite Hv.
    destruct (search_leftmost _ _ Hv) as (pre & m & post & ? & ? & _ & ?).
    by exists v, pre, m, post.
Qed.

Lemma parse_version_spec_witness :
  exists v pre m post,
    (parse_version (version_file_of sample.root) sample.start).2 = Ok v /\
    sample.version_content = pre +:+ m +:+ post /\ is_version_match m v /\
    forall pre' m' g' post',
      sample.version_content = pre' +:+ m' +:+ post' ->
      is_version_match m' g' ->
      String.length pre <= String.length pre' /\
      (pre' = pre -> String.length v <= String.length g').
Proof.
  apply (parse_version_spec (version_file_of sample.root)
           sample.version_content sample.start).
  - reflexivity.
  - exists ("# version" +:+ String newline ""),
      ("__version__ = " +:+ DQ +:+ "1.2.3" +:+ DQ), "1.2.3", (String newline "").
    split; [reflexivity|].
    exists " ", " ", dquote, dquote.
    split_and!; try reflexivity. discriminate.
Defined.

End parse_version_facts.

(** ** locate_wheel *)

Module locate_wheel_facts.
Import pip_build wheel_spec.

Lemma insert_desc_perm (x : DirEntry) (l : list DirEntry) :
  insert_desc x l ≡ₚ x :: l.
Proof.
  induction l as [|y l IH]; simpl; [done|].
  destruct (st_mtime x <? st_mtime y)%Z; [|done].
  rewrite IH. apply Permutation_swap.
Qed.

Lemma sorted_desc_perm (l : list DirEntry) : sorted_desc l ≡ₚ l.
Proof.
  induction l as [|x l IH]; simpl; [done|].
  by rewrite insert_desc_perm, IH.
Qed.

Lemma insert_desc_sorted (x : DirEntry) (l : list DirEntry) :
  StronglySorted newer_first l -> StronglySorted newer_first (insert_desc x l).
Proof.
  induction 1 as [|y l Hl IH Hy]; simpl.
  - repeat constructor.
  - destruct (st_mtime x <? st_mtime y)%Z eqn:Hxy.
    + apply Z.ltb_lt in Hxy. constructor; [done|].
      rewrite insert_desc_perm. constructor; [unfold newer_first; lia|done].
    + apply Z.ltb_ge in Hxy. constructor; [by constructor|].
      constructor; [done|].
      eapply Forall_impl; [exact Hy|]. unfold newer_first. intros z ?. lia.
Qed.

Lemma sorted_desc_sorted (l : list DirEntry) :
  StronglySorted newer_first (sorted_desc l).
Proof.
  induction l as [|x l IH]; simpl; [constructor|by apply insert_desc_sorted].
Qed.

Lemma sorted_desc_nil (l : list DirEntry) : sorted_desc l = [] <-> l = [].
Proof.
  split; [|by intros ->].
  intros Hnil. apply Permutation_nil_r. rewrite <- Hnil.
  by rewrite sorted_desc_perm.
Qed.

Lemma first_with_version_Some (version : string) (l : list DirEntry)
    (w : DirEntry) :
  first_with_version version l = Some w ->
  exists l1 l2,
    l = l1 ++ w :: l2 /\ Py.contains version (name w) = true /\
    Forall (fun x => Py.contains version (name x) = false) l1.
Proof.
  induction l as [|x l IH]; simpl; [done|].
  destruct (Py.contains version (name x)) eqn:Hx.
  - intros [= ->]. by exists [], l.
  - intros (l1 & l2 & -> & Hw & Hl1)%IH.
    exists (x :: l1), l2. split; [done|]. split; [done|by constructor].
Qed.

Lemma first_with_version_None (version : string) (l : list DirEntry) :
  first_with_version version l = None <->
  Forall (fun x => Py.contains version (name x) = false) l.
Proof.
  induction l as [|x l IH]; simpl; [done|].
  destruct (Py.contains version (name x)) eqn:Hx.
  - split; [done|]. intros Hall. apply Forall_cons in Hall as [? _]. congruence.
  - rewrite IH. split; [by constructor|]. by intros [_ ?]%Forall_cons.
Qed.

(** [locate_wheel] returns [None] exactly when the directory is missing or
    holds no wheel. *)
Lemma locate_wheel_None (f : FS) (wheels_path : list string) (version : string) :
  locate_wheel f wheels_path version = None <->
  path_exists f wheels_path = false \/ glob f wheels_path ".whl" = [].
Proof.
  unfold locate_wheel.
  destruct (path_exists f wheels_path); cbn [negb];
    [|split; [intros _; by left|done]].
  destruct (first_with_version _ _) as [w|] eqn:Hfirst.
  - split; [done|]. intros [|Hnil]; [done|].
    rewrite Hnil in Hfirst. done.
  - destruct (sorted_desc _) as [|w ws] eqn:Hsorted.
    + apply (proj1 (sorted_desc_nil _)) in Hsorted.
      split; [intros _; by right|done].
    + split; [done|]. intros [|Hnil]; [done|].
      rewrite Hnil in Hsorted. done.
Qed.

(** With a wheel whose name contains the version, the result is such a
    wheel, and no other such wheel is newer. *)
Lemma locate_wheel_newest_match (f : FS) (wheels_path : list string)
    (version : string) (w : DirEntry) :
  w ∈ glob f wheels_path ".whl" ->
  Py.contains version (name w) = true ->
  exists w',
    locate_wheel f wheels_path version = Some (wheels_path // name w') /\
    w' ∈ glob f wheels_path ".whl" /\
    Py.contains version (name w') = true /\
    forall w'', w'' ∈ glob f wheels_path ".whl" ->
                Py.contains version (name w'') = true ->
                (st_mtime w'' <= st_mtime w')%Z.
Proof.
  intros Hw Hcontains. unfold locate_wheel.
  assert (path_exists f wheels_path = true) as ->.
  { unfold glob in Hw. unfold path_exists.
    destruct (dirs f !! wheels_path) eqn:Hdir; [|by apply elem_of_nil in Hw].
    rewrite bool_decide_true by eauto. done. }
  simpl.
  pose proof (sorted_desc_perm (glob f wheels_path ".whl")) as Hperm.
  pose proof (sorted_desc_sorted (glob f wheels_path ".whl")) as Hsorted.
  destruct (first_with_version _ _) as [w'|] eqn:Hfirst.
  - apply first_with_version_Some in Hfirst as (l1 & l2 & Hl & Hw' & Hl1).
    exists w'. split; [done|]. split.
    { rewrite <- Hperm, Hl. set_solver. }
    split; [done|].
    intros w'' Hin Hc. rewrite <- Hperm, Hl in Hin.
    rewrite Hl in Hsorted.
    apply elem_of_app in Hin as [Hin|Hin].
    { rewrite Forall_forall in Hl1. specialize (Hl1 w'' Hin). congruence. }
    apply elem_of_cons in Hin as [->|Hin]; [lia|].
    apply StronglySorted_app_1_r, StronglySorted_inv in Hsorted as [_ Hall].
    rewrite Forall_forall in Hall. by apply Hall.
  - apply first_with_version_None in Hfirst.
    rewrite <- Hperm in Hw. rewrite Forall_forall in Hfirst.
    specialize (Hfirst w Hw). congruence.
Qed.

Lemma locate_wheel_listing (f : FS) (wheels_path : list string)
    (entries : list DirEntry) (version : string) :
  dirs f !! wheels_path = Some entries ->
  Forall (fun e => Py.endswith ".whl" (name e) = true) entries ->
  Forall (fun e => Py.contains version (name e) = true) entries ->
  locate_wheel f wheels_path version =
    match sorted_desc entries with
    | wheel :: _ => Some (wheels_path // name wheel)
    | [] => None
    end.
Proof.
  intros Hdir Hwhl Hver. unfold locate_wheel, path_exists, glob.
  rewrite Hdir. rewrite bool_decide_true by eauto. cbn [orb negb].
  assert (filter (fun e => Is_true (Py.endswith ".whl" (name e))) entries
          = entries) as ->.
  { clear Hdir Hver. induction Hwhl as [|e l He Hl IH]; [done|].
    rewrite filter_cons_True by by rewrite He. by rewrite IH. }
  assert (Forall (fun e => Py.contains version (name e) = true)
                 (sorted_desc entries)) as Hsorted.
  { by rewrite sorted_desc_perm. }
  destruct Hsorted as [|w ws Hw _]; [done|].
  simpl. by rewrite Hw.
Qed.

(** C2, as the code has it.  Both [pkg-1.2.3.whl] and [pkg-1.2.3.dev99.whl]
    contain the version 1.2.3, so of a directory that lists exactly these two
    [locate_wheel] returns the newer one, and on equal times the one listed
    first.  In general a wheel whose name contains the version is preferred to
    the newest wheel: when there is one, the result is a newest wheel among
    those whose name contains the version. *)
Theorem locate_wheel_newest_containing (f : FS) (wheels_path : list string)
    (entries : list DirEntry) (m1 m2 : Z) :
  dirs f !! wheels_path = Some entries ->
  entries ≡ₚ [release_wheel m1; dev_wheel m2] ->
  ((m1 < m2)%Z ->
   locate_wheel f wheels_path "1.2.3" =
     Some (wheels_path // "pkg-1.2.3.dev99.whl"))
  /\ ((m2 < m1)%Z ->
      locate_wheel f wheels_path "1.2.3" =
        Some (wheels_path // "pkg-1.2.3.whl"))
  /\ (m1 = m2 ->
      locate_wheel f wheels_path "1.2.3" =
        (fun e => wheels_path // name e) <$> head entries)
  /\ (forall (f' : FS) (wheels_path' : list string) (version : string)
             (w : DirEntry),
        w ∈ glob f' wheels_path' ".whl" ->
        Py.contains version (name w) = true ->
        exists w',
          locate_wheel f' wheels_path' version =
            Some (wheels_path' // name w') /\
          w' ∈ glob f' wheels_path' ".whl" /\
          Py.contains version (name w') = true /\
          forall w'', w'' ∈ glob f' wheels_path' ".whl" ->
                      Py.contains version (name w'') = true ->
                      (st_mtime w'' <= st_mtime w')%Z).
Proof.
  intros Hdir Hperm.
  assert (locate_wheel f wheels_path "1.2.3" =
            match sorted_desc entries with
            | wheel :: _ => Some (wheels_path // name wheel)
            | [] => None
            end) as ->.
  { apply locate_wheel_listing; [done|..]; rewrite Hperm;
      repeat constructor. }
  symmetry in Hperm. apply Permutation_length_2_inv in Hperm as [-> | ->];
    simpl; (split_and!; [..|apply locate_wheel_newest_match]); intros Hm;
    try (destruct (Z.ltb_spec m1 m2); (done || lia));
    try (destruct (Z.ltb_spec m2 m1); (done || lia)).
Qed.

Lemma locate_wheel_newest_containing_witness :
  locate_wheel (wheels_dir ["ws"; "wheels"] [release_wheel 10; dev_wheel 20])
    ["ws"; "wheels"] "1.2.3"
  = Some ["ws"; "wheels"; "pkg-1.2.3.dev99.whl"].
Proof.
  apply (locate_wheel_newest_containing
           (wheels_dir ["ws"; "wheels"] [release_wheel 10; dev_wheel 20])
           ["ws"; "wheels"] [release_wheel 10; dev_wheel 20] 10 20).
  - reflexivity.
  - reflexivity.
  - lia.
Defined.

(** C2 as stated does not hold: a newer [pkg-1.2.3.dev99.whl] is the one
    returned. *)
Lemma locate_wheel_exact_match_counterexample :
  ~ (forall m1 m2 : Z,
       locate_wheel
         (wheels_dir ["ws"; "wheels"] [release_wheel m1; dev_wheel m2])
         ["ws"; "wheels"] "1.2.3"
       = Some ["ws"; "wheels"; "pkg-1.2.3.whl"]).
Proof.
  intros Hall. specialize (Hall 10%Z 20%Z). vm_compute in Hall. discriminate.
Qed.

End locate_wheel_facts.

(** ** nightly_overrides *)

Module nightly_facts.
Import pip_build builder_spec.

Section facts.
Context (exec : command -> FS -> FS * cmd_result).
Context (sub_with_escapes : string -> string -> result string).

Lemma emit_as_emit_all (e : event) (s : state) : emit e s = emit_all [e] s.
Proof. reflexivity. Qed.

Local Ltac solve_reads :=
  repeat first [apply Forall_nil_2 | apply Forall_cons_2; [auto|]].

(** C9. Without the nightly flag the scope of [nightly_overrides] only
    reads: it hands the body the unchanged file system and the version
    parsed from the version file, its own events are reads of the two
    files, and after the body, however that ends, it does nothing. *)
Theorem nightly_overrides_off_only_reads {A : Type} (root : list string)
    (body : string -> M A) (s : state) :
  exists (reads : list event),
    Forall (is_source_read root) reads /\
    ((exists e : exn,
        nightly_overrides sub_with_escapes root false body s =
          (emit_all reads s, Raise e))
     \/
     (exists v : string,
        (parse_version (version_file_of root) s).2 = Ok v /\
        nightly_overrides sub_with_escapes root false body s =
          let '(s', r) := body v (emit_all reads s) in (s', yielded v r))).
Proof.
  unfold nightly_overrides, parse_version, bind, read_text, try_finally,
    restore, ret, raise, is_source_read.
  destruct (files (fs s) !! version_file_of root) as [vc|] eqn:Hvf; simpl.
  2:{ exists [EvRead (version_file_of root)]. split; [solve_reads|].
      left. eexists. reflexivity. }
  destruct (files (fs s) !! setup_file_of root) as [sc|] eqn:Hsf; simpl.
  2:{ exists [EvRead (version_file_of root); EvRead (setup_file_of root)].
      split; [solve_reads|].
      left. eexists. rewrite !emit_as_emit_all. unfold emit_all; simpl.
      by rewrite <- !app_assoc. }
  rewrite Hvf.
  exists [EvRead (version_file_of root); EvRead (setup_file_of root);
          EvRead (version_file_of root)].
  split; [solve_reads|].
  assert (emit (EvRead (version_file_of root))
            (emit (EvRead (setup_file_of root))
               (emit (EvRead (version_file_of root)) s))
          = emit_all [EvRead (version_file_of root);
                      EvRead (setup_file_of root);
                      EvRead (version_file_of root)] s) as ->.
  { unfold emit, emit_all; simpl. by rewrite <- !app_assoc. }
  destruct (Re.search vc) as [v|]; simpl.
  - right. exists v. split; [done|].
    destruct (body v _) as [s' [a|e]]; reflexivity.
  - left. eexists. reflexivity.
Qed.








End facts.


End nightly_facts.


(** ** build *)

Module build_facts.
Import pip_build builder_spec.

Section facts.
Context (exec : command -> FS -> FS * cmd_result).
Context (sub_with_escapes : string -> string -> result string).
Context (root : list string).

Lemma same_sources_refl (s : state) : same_sources root s s.
Proof. by split. Qed.

Lemma same_sources_trans (s1 s2 s3 : state) :
  same_sources root s1 s2 -> same_sources root s2 s3 ->
  same_sources root s1 s3.
Proof. intros [H1 H2] [H3 H4]. split; congruence. Qed.

Lemma same_files_same_sources (s s' : state) :
  files (fs s') = files (fs s) -> same_sources root s s'.
Proof. intros Heq. unfold same_sources. by rewrite Heq. Qed.

Lemma keeps_ret {A} (a : A) : keeps_sources root (ret a).
Proof. intros s. apply same_sources_refl. Qed.

Lemma keeps_bind {A B} (m : M A) (k : A -> M B) :
  keeps_sources root m -> (forall a, keeps_sources root (k a)) ->
  keeps_sources root (bind m k).
Proof.
  intros Hm Hk s. unfold bind. specialize (Hm s).
  destruct (m s) as [s' [a|e]]; [|done].
  eapply same_sources_trans; [exact Hm|apply Hk].
Qed.


Lemma keeps_read_text (p : list string) : keeps_sources root (read_text p).
Proof.
  intros s. unfold read_text.
  destruct (files (fs s) !! p); by apply same_files_same_sources.
Qed.

Lemma keeps_parse_version (p : list string) :
  keeps_sources root (parse_version p).
Proof.
  apply keeps_bind; [apply keeps_read_text|].
  intros content. destruct (Re.search content); [apply keeps_ret|].
  intros s. apply same_sources_refl.
Qed.






Lemma try_finally_state {A} (body : M A) (handler : M unit) (s : state) :
  (try_finally body handler s).1 = (handler (body s).1).1.
Proof.
  unfold try_finally. destruct (body s) as [s1 r]. simpl.
  by destruct (handler s1) as [s2 [[]|e]].
Qed.





(** A command that exits with a status other than zero raises
    [CalledProcessError] with that status. *)
Lemma run_command_nonzero (cmd : command) (s : state) (f : FS) (rc : Z) :
  exec cmd (fs s) = (f, Exited rc) -> rc <> 0%Z ->
  (run_command exec cmd s).2 = Raise (CalledProcessError rc (argv cmd)).
Proof.
  intros Hexec Hrc. unfold run_command, bind, print, subprocess_run. simpl.
  rewrite Hexec. by destruct (Z.eqb_spec rc 0).
Qed.

(** A [CalledProcessError] out of [build] becomes the exit status. *)
Lemma main_build_failure_status (args_install args_nightly : bool)
    (s : state) (rc : Z) (cmd : list string) :
  (build exec sub_with_escapes root args_nightly s).2 =
    Raise (CalledProcessError rc cmd) ->
  (0 < rc < 256)%Z ->
  exit_status (main exec sub_with_escapes args_install args_nightly root s).2
  = rc.
Proof.
  intros Hbuild Hrc. unfold main.
  destruct (build exec sub_with_escapes root args_nightly s) as [s1 r].
  simpl in Hbuild. subst r. simpl. by apply Z.mod_small; lia.
Qed.

End facts.




(** C6 at the install step: with [--install], a build that succeeds and a
    [pip3] that exits with status 2, the script ends in a traceback of the
    uncaught [CalledProcessError], that is with exit status 1, not 2. *)
Theorem main_install_failure_status :
  let t := (main (sample.exec [Exited 0; Exited 0; Exited 0; Exited 2])
              sample.no_escapes true false sample.root sample.start).2 in
  t = Uncaught (CalledProcessError 2
                  ["pip3"; "install"; "--force-reinstall"; "--no-dependencies";
                   "/ws/dist/keras_cv-1.2.3-py3-none-any.whl"])
  /\ exit_status t = 1%Z.
Proof. vm_compute. split; reflexivity. Qed.

End build_facts.

(** ** The definitions on concrete inputs *)

Module examples.
Import pip_build.

Example normpath_parent :
  posixpath.normpath "/ws/keras_cv/src/custom_ops/../x.so"
  = "/ws/keras_cv/src/x.so".
Proof. vm_compute. reflexivity. Qed.

Example search_roots_sample :
  @resource_loader.search_roots (posixpath.os_path "/")
    (locator_spec.sample_env [])
  = ["/opt/data"; "/ws/keras_cv/src"; "/ws/keras_cv";
     "/ws/bazel-bin/keras_cv/src"].
Proof. vm_compute. reflexivity. Qed.

Example resource_in_bazel_bin :
  @resource_loader.get_path_to_datafile (posixpath.os_path "/")
    (locator_spec.sample_env ["/ws/bazel-bin/keras_cv/src/custom_ops/x.so"])
    "custom_ops/x.so"
  = Ok "/ws/bazel-bin/keras_cv/src/custom_ops/x.so".
Proof. vm_compute. reflexivity. Qed.

Example resource_missing :
  @resource_loader.get_path_to_datafile (posixpath.os_path "/")
    (locator_spec.sample_env []) "custom_ops/x.so"
  = Raise (FileNotFoundError
             ("Unable to locate resource 'custom_ops/x.so'. Looked in: " +:+
              "/opt/data/custom_ops/x.so, /ws/keras_cv/src/custom_ops/x.so, " +:+
              "/ws/keras_cv/custom_ops/x.so, " +:+
              "/ws/bazel-bin/keras_cv/src/custom_ops/x.so")).
Proof. vm_compute. reflexivity. Qed.

(** The quotes around the version need not be the same, and the group
    stops at the first quote after its first character. *)
Example search_mixed_quotes :
  Re.search ("__version__=" +:+ String squote ("0.9" +:+ DQ +:+ "rc" +:+ DQ))
  = Some "0.9".
Proof. vm_compute. reflexivity. Qed.

Example search_needs_a_character :
  Re.search ("__version__ = " +:+ DQ +:+ DQ) = None.
Proof. vm_compute. reflexivity. Qed.

Example replace_every_occurrence :
  Py.replace "ab" "X" "cabab-abb" = "cXX-Xb".
Proof. vm_compute. reflexivity. Qed.

(** A nightly build of the sample checkout: the wheel carries the nightly
    version and the sources are as before. *)
Example nightly_build_sample :
  let '(s, r) := build (sample.exec []) sample.no_escapes sample.root true
                   sample.start in
  r = Ok (Some ["ws"; "dist"; "keras_cv-1.2.3.dev2026110307-py3-none-any.whl"])
  /\ files (fs s) !! version_file_of sample.root = Some sample.version_content
  /\ files (fs s) !! setup_file_of sample.root = Some sample.setup_content.
Proof. vm_compute. split_and!; reflexivity. Qed.

(** A nightly build whose [bazel] exits with status 3: the script exits
    with status 3 and the sources are as before. *)
Example nightly_build_fails :
  let '(s, t) := main (sample.exec [Exited 0; Exited 3]) sample.no_escapes
                   true true sample.root sample.start in
  t = SystemExit 3 /\ exit_status t = 3%Z
  /\ files (fs s) !! version_file_of sample.root = Some sample.version_content
  /\ files (fs s) !! setup_file_of sample.root = Some sample.setup_content.
Proof. vm_compute. split_and!; reflexivity. Qed.

End examples.

(** ** More on the locator *)

Module locator_more.
Import resource_loader locator_spec locator_more_spec.

Lemma startswith_spec (p s : string) :
  Py.startswith p s = true <-> exists r, s = p +:+ r.
Proof.
  revert s. induction p as [|a p IH]; intros s; simpl.
  - split; [by exists s|done].
  - destruct s as [|b s]; [split; [done|by intros [r ?]]|].
    destruct (Ascii.eqb_spec a b) as [->|Hab].
    + rewrite IH. split; intros [r Hr]; exists r.
      * by rewrite string_facts.app_cons, <- Hr.
      * rewrite string_facts.app_cons in Hr. by injection Hr.
    + split; [done|]. intros [r Hr].
      rewrite string_facts.app_cons in Hr. by injection Hr.
Qed.

Lemma replace_same_char (a : ascii) (s : string) :
  Py.replace (String a "") (String a "") s = s.
Proof.
  unfold Py.replace. induction s as [|c s IH]; [done|]. simpl.
  destruct (Ascii.eqb_spec a c) as [->|]; by rewrite IH.
Qed.

Lemma nonempty_app_r (s t : string) :
  Py.nonempty t = true -> Py.nonempty (s +:+ t) = true.
Proof. by destruct s, t. Qed.

Section facts.
Context `{OsPath}.

Lemma get_path_to_datafile_find (env : Env) (path : string) :
  get_path_to_datafile env path =
    match List.find (path_exists env) (candidates env path) with
    | Some c => Ok c
    | None =>
        Raise (FileNotFoundError (not_found_message path (candidates env path)))
    end.
Proof.
  unfold get_path_to_datafile, candidates.
  by rewrite (locator_facts.search_loop_spec env path _ _ [] eq_refl).
Qed.

(** X1. What [get_path_to_datafile] returns is one of its candidates and
    exists; the only exception it raises is [FileNotFoundError], and then
    no candidate exists. *)
Theorem get_path_to_datafile_outcome (env : Env) (path : string) :
  match get_path_to_datafile env path with
  | Ok p => p ∈ candidates env path /\ path_exists env p = true
  | Raise e =>
      e = FileNotFoundError (not_found_message path (candidates env path))
      /\ Forall (fun c => path_exists env c = false) (candidates env path)
  end.
Proof.
  rewrite get_path_to_datafile_find.
  destruct (List.find _ _) as [c|] eqn:Hfind.
  - apply find_some in Hfind as [Hin Hex]. by rewrite list_elem_of_In.
  - split; [done|]. rewrite Forall_forall. intros c Hc.
    apply (find_none _ _ Hfind). by rewrite <- list_elem_of_In.
Qed.

(** X2. An override root set to the empty string is not searched: the
    result is that of a host where the variable is not set. *)
Theorem empty_override_is_ignored (env : Env) (path : string) :
  environ env !! "KERAS_CV_DATA_ROOT" = Some "" ->
  get_path_to_datafile env path =
    get_path_to_datafile
      (with_environ (delete "KERAS_CV_DATA_ROOT" (environ env)) env) path.
Proof.
  intros Hempty. rewrite !get_path_to_datafile_find.
  unfold candidates, search_roots, get_project_root, with_environ.
  cbn [environ module_file path_exists].
  by rewrite Hempty, lookup_delete_eq.
Qed.

(** When the last search root is not empty, its candidate ends the
    list of candidates. *)
Lemma candidates_last (env : Env) (path : string) :
  let last_root :=
    os_path_join (dirname (dirname (get_project_root env)))
      ["bazel-bin"; "keras_cv"; "src"] in
  Py.nonempty last_root = true ->
  exists rest, candidates env path = rest ++ [candidate_of path last_root].
Proof.
  intros last_root Hlast. unfold candidates, search_roots.
  fold last_root. generalize last_root Hlast. clear last_root Hlast.
  generalize (get_project_root env), (dirname (get_project_root env)).
  intros r1 r2 r3 Hr3.
  rewrite List.filter_app, map_app. cbn [List.filter]. rewrite Hr3.
  destruct (Py.nonempty r1), (Py.nonempty r2); cbn [map].
  - eexists (_ ++ [_; _]). by rewrite <- app_assoc.
  - eexists (_ ++ [_]). by rewrite <- app_assoc.
  - eexists (_ ++ [_]). by rewrite <- app_assoc.
  - by eexists.
Qed.

End facts.

Lemma empty_override_is_ignored_witness :
  @get_path_to_datafile (posixpath.os_path "/") empty_override_env
    "custom_ops/foo.so"
  = @get_path_to_datafile (posixpath.os_path "/")
      (with_environ (delete "KERAS_CV_DATA_ROOT" (environ empty_override_env))
         empty_override_env)
      "custom_ops/foo.so".
Proof.
  apply (@empty_override_is_ignored (posixpath.os_path "/")
           empty_override_env).
  reflexivity.
Defined.

Lemma posix_join2_nonempty (a b : string) :
  Py.nonempty b = true -> Py.nonempty (posixpath.join2 a b) = true.
Proof.
  intros Hb. unfold posixpath.join2.
  destruct (Py.startswith "/" b); [done|].
  destruct (_ || _); repeat apply nonempty_app_r; done.
Qed.

(** On a POSIX host the last search root is never empty. *)
Lemma posix_candidates_nonempty (cwd : string) (env : Env) (path : string) :
  exists root rest,
    @candidates (posixpath.os_path cwd) env path =
      rest ++ [@candidate_of (posixpath.os_path cwd) path root].
Proof.
  destruct (@candidates_last (posixpath.os_path cwd) env path) as [rest Hrest].
  - unfold os_path_join. cbn [fold_left].
    change (@join2 (posixpath.os_path cwd)) with posixpath.join2.
    by apply posix_join2_nonempty.
  - by eexists _, rest.
Qed.

(** X3. On a POSIX host a request that starts with a slash is not looked
    up under the search roots: [os.path.join] drops the root, and the
    result is the normalised request itself when that exists. *)
Theorem absolute_request_bypasses_roots (cwd : string) (env : Env)
    (path : string) :
  Py.startswith "/" path = true ->
  if path_exists env (posixpath.normpath path)
  then @get_path_to_datafile (posixpath.os_path cwd) env path
       = Ok (posixpath.normpath path)
  else exists msg,
       @get_path_to_datafile (posixpath.os_path cwd) env path
       = Raise (FileNotFoundError msg).
Proof.
  intros Habs. rewrite get_path_to_datafile_find.
  assert (forall root, @candidate_of (posixpath.os_path cwd) path root
                       = posixpath.normpath path) as Hcand.
  { intros root. unfold candidate_of, os_path_join.
    cbn [fold_left join2 normpath sep posixpath.os_path].
    rewrite replace_same_char. unfold posixpath.join2. by rewrite Habs. }
  destruct (posix_candidates_nonempty cwd env path) as (root & rest & Hall).
  rewrite Hcand in Hall.
  assert (Forall (fun c => c = posixpath.normpath path)
                 (@candidates (posixpath.os_path cwd) env path)) as Hsame.
  { unfold candidates. rewrite Forall_forall. intros c Hin.
    apply list_elem_of_fmap in Hin as (r & -> & _). apply Hcand. }
  destruct (path_exists env (posixpath.normpath path)) eqn:Hex.
  - destruct (List.find _ _) as [c|] eqn:Hfind.
    + apply find_some in Hfind as [Hin _].
      rewrite Forall_forall in Hsame.
      by rewrite (Hsame c) by by rewrite list_elem_of_In.
    + exfalso. pose proof (find_none _ _ Hfind (posixpath.normpath path)) as Hno.
      rewrite Hex in Hno. enough (false = true) by done. symmetry. apply Hno.
      rewrite Hall. apply in_or_app. right. by left.
  - destruct (List.find _ _) as [c|] eqn:Hfind; [|by eexists].
    apply find_some in Hfind as [Hin Hc].
    rewrite Forall_forall in Hsame.
    rewrite (Hsame c) in Hc by by rewrite list_elem_of_In. congruence.
Qed.

Lemma absolute_request_bypasses_roots_witness :
  @get_path_to_datafile (posixpath.os_path "/")
    (sample_env ["/usr/lib/x.so"]) "/usr/lib/./x.so"
  = Ok "/usr/lib/x.so".
Proof.
  apply (absolute_request_bypasses_roots "/"
           (sample_env ["/usr/lib/x.so"]) "/usr/lib/./x.so").
  reflexivity.
Defined.

End locator_more.

(** ** More on the lazy handle *)

Module lazy_so_more.
Import resource_loader locator_spec locator_more_spec.

Section facts.
Context `{OsPath} {Lib : Type}.

(** X4. Once an access has returned a library, every later access of the
    handle returns that library again, whatever the environment, the file
    system, the TensorFlow version and the loader have become, and leaves
    the globals alone: the library is loaded once. *)
Theorem ops_is_cached (env : Env) (tf_version : string)
    (load_op_library : string -> result Lib)
    (self self' : LazySO Lib) (g g' : Globals) (lib : Lib) :
  ops env tf_version load_op_library self g = (self', g', Ok lib) ->
  forall (env2 : Env) (tf_version2 : string)
         (load2 : string -> result Lib) (g2 : Globals),
    ops env2 tf_version2 load2 self' g2 = (self', g2, Ok lib).
Proof.
  unfold ops. intros Hops env2 tf_version2 load2 g2.
  destruct (_ops self) as [cached|] eqn:Hcached.
  - injection Hops as <- _ <-. by rewrite Hcached.
  - destruct (get_path_to_datafile env _); [|done].
    destruct (load_op_library _); [|done].
    by injection Hops as <- _ <-.
Qed.

(** X5. An access that raises leaves the handle without a library, so the
    next access tries again; the warning it may have emitted stays
    recorded. *)
Theorem failed_access_is_retried (env : Env) (tf_version : string)
    (load_op_library : string -> result Lib)
    (self self' : LazySO Lib) (g g' : Globals) (e : exn) :
  ops env tf_version load_op_library self g = (self', g', Raise e) ->
  self' = self /\ _ops self' = None
  /\ g' = display_warning_if_incompatible tf_version g
  /\ (get_path_to_datafile env (relative_path self) = Raise e
      \/ exists p, get_path_to_datafile env (relative_path self) = Ok p
                   /\ load_op_library p = Raise e).
Proof.
  unfold ops. destruct (_ops self) as [cached|] eqn:Hcached; [done|].
  destruct (get_path_to_datafile env _) as [p|e1].
  - destruct (load_op_library p) as [lib|e2] eqn:Hload; [done|].
    intros [= <- <- <-]. split_and!; try done. right. by exists p.
  - intros [= <- <- <-]. split_and!; try done. by left.
Qed.


Lemma display_warning_compatible (tf_version : string) (g : Globals) :
  abi_is_compatible tf_version = true ->
  display_warning_if_incompatible tf_version g = g.
Proof.
  intros Habi. unfold display_warning_if_incompatible.
  by rewrite Habi, orb_true_r.
Qed.

(** X7. With a TensorFlow version that starts with 2.17, no sequence of
    accesses changes the globals: nothing is warned and the flag keeps its
    value. *)
Theorem compatible_never_warns (env : Env) (tf_version : string)
    (load_op_library : string -> result Lib) (accesses : list nat)
    (store : list (LazySO Lib)) (g : Globals) :
  abi_is_compatible tf_version = true ->
  (access_all env tf_version load_op_library accesses store g).2 = g.
Proof.
  intros Habi. revert store.
  induction accesses as [|i rest IH]; intros store; simpl; [done|].
  destruct (store !! i) as [self|]; [|apply IH].
  unfold ops. destruct (_ops self); [apply IH|].
  rewrite display_warning_compatible by done.
  destruct (get_path_to_datafile env _); [|apply IH].
  destruct (load_op_library _); apply IH.
Qed.

End facts.

(** X8. [abi_is_compatible] holds exactly for the version strings that
    begin with the text 2.17, whatever follows (2.17.1, and 2.170 too). *)
Theorem abi_is_compatible_prefix (tf_version : string) :
  abi_is_compatible tf_version = true <->
  exists rest, tf_version = TF_VERSION_FOR_ABI_COMPATIBILITY +:+ rest.
Proof. apply locator_more.startswith_spec. Qed.

Lemma ops_is_cached_witness :
  @ops (posixpath.os_path "/") (sample_env []) string "1.0"
    (fun _ => Raise (OpLoadError ""))
    {| relative_path := "custom_ops/foo.so";
       _ops := Some "lib:/opt/data/custom_ops/foo.so" |}
    initial_globals
  = ({| relative_path := "custom_ops/foo.so";
        _ops := Some "lib:/opt/data/custom_ops/foo.so" |},
     initial_globals, Ok "lib:/opt/data/custom_ops/foo.so").
Proof.
  apply (@ops_is_cached (posixpath.os_path "/") string
           (sample_env ["/opt/data/custom_ops/foo.so"]) "2.16.1" sample_load
           sample_handle _ initial_globals
           {| abi_warning_already_raised := true;
              warnings := [abi_warning "2.16.1"] |}).
  vm_compute. reflexivity.
Defined.

Lemma failed_access_is_retried_witness :
  sample_handle = sample_handle /\ _ops sample_handle = None
  /\ {| abi_warning_already_raised := true;
        warnings := [abi_warning "2.16.1"] |}
     = display_warning_if_incompatible "2.16.1" initial_globals
  /\ (@get_path_to_datafile (posixpath.os_path "/") (sample_env [])
        (relative_path sample_handle)
      = Raise (FileNotFoundError
                 (@not_found_message "custom_ops/foo.so"
                    (@candidates (posixpath.os_path "/") (sample_env [])
                       "custom_ops/foo.so")))
      \/ exists p,
           @get_path_to_datafile (posixpath.os_path "/") (sample_env [])
             (relative_path sample_handle) = Ok p
           /\ sample_load p
              = Raise (FileNotFoundError
                         (@not_found_message "custom_ops/foo.so"
                            (@candidates (posixpath.os_path "/") (sample_env [])
                               "custom_ops/foo.so")))).
Proof.
  apply (@failed_access_is_retried (posixpath.os_path "/") string
           (sample_env []) "2.16.1" sample_load sample_handle sample_handle
           initial_globals).
  vm_compute. reflexivity.
Defined.


Lemma compatible_never_warns_witness :
  (@access_all (posixpath.os_path "/") (sample_env []) string "2.17.0"
     sample_load [0; 1; 0] [sample_handle; sample_handle] initial_globals).2
  = initial_globals.
Proof.
  apply (@compatible_never_warns (posixpath.os_path "/") string (sample_env [])
           "2.17.0" sample_load). reflexivity.
Defined.

End lazy_so_more.

(** ** More on parse_version and locate_wheel *)

Module wheel_more.
Import pip_build wheel_spec builder_more_spec.

Lemma lazy_group_no_quote (s g r : string) :
  Re.lazy_group s = Some (g, r) ->
  no_quote g = true /\ Re_spec.no_newline g = true.
Proof.
  revert g r. induction s as [|c s IH]; intros g r; simpl; [done|].
  destruct (Re.is_quote c) eqn:Hq; [by intros [= <- <-]|].
  destruct (Re.is_newline c) eqn:Hn; [done|].
  destruct (Re.lazy_group s) as [[g' r']|]; [|done].
  intros [= <- <-]. destruct (IH g' r' eq_refl) as [Hg Hl].
  simpl. by rewrite Hq, Hn, Hg, Hl.
Qed.

Lemma match_version_group (s g r : string) :
  Re.match_version s = Some (g, r) ->
  exists c t, g = String c t /\ no_quote t = true
              /\ Re_spec.no_newline g = true.
Proof.
  unfold Re.match_version.
  destruct (Re.strip_prefix _ s) as [s1|]; [|done].
  destruct (Re.skip_space s1) as [|e s2]; [done|].
  destruct (Ascii.eqb e "=") eqn:He; cycle 1.
  { apply Ascii.eqb_neq in He.
    destruct e as [[] [] [] [] [] [] [] []]; try done. }
  apply Ascii.eqb_eq in He as ->.
  destruct (Re.skip_space s2) as [|q [|c s3]]; [done..|].
  destruct (Re.is_quote q); [|done]. simpl.
  destruct (Re.is_newline c) eqn:Hc; [done|]. simpl.
  destruct (Re.lazy_group s3) as [[g' r']|] eqn:Hs3; [|done].
  intros [= <- <-]. apply lazy_group_no_quote in Hs3 as [Hq Hn].
  exists c, g'. split; [done|]. split; [done|]. simpl. by rewrite Hc, Hn.
Qed.

Lemma search_group (s g : string) :
  Re.search s = Some g ->
  exists c t, g = String c t /\ no_quote t = true
              /\ Re_spec.no_newline g = true.
Proof.
  induction s as [|c s IH]; simpl; [done|].
  destruct (Re.match_version (String c s)) as [[g0 r]|] eqn:Hm; [|done].
  intros [= <-]. by apply match_version_group in Hm.
Qed.

(** X9. A version that [parse_version] returns is not empty, has no
    newline and no quote after its first character; parsing only reads:
    the file system is as before and the log has one more read. *)
Theorem parsed_version_shape (version_file : list string) (s s' : state)
    (v : string) :
  parse_version version_file s = (s', Ok v) ->
  (exists c t, v = String c t /\ no_quote t = true)
  /\ Re_spec.no_newline v = true
  /\ fs s' = fs s
  /\ log s' = log s ++ [EvRead version_file].
Proof.
  unfold parse_version, bind, read_text.
  destruct (files (fs s) !! version_file) as [content|]; [|done].
  destruct (Re.search content) as [g|] eqn:Hg; [|done].
  intros [= <- <-]. apply search_group in Hg as (c & t & -> & Hq & Hn).
  split; [by exists c, t|]. by split.
Qed.

Lemma parsed_version_shape_witness :
  (exists c t, "1.2.3" = String c t /\ no_quote t = true)
  /\ Re_spec.no_newline "1.2.3" = true
  /\ fs (emit (EvRead (version_file_of sample.root)) sample.start)
     = fs sample.start
  /\ log (emit (EvRead (version_file_of sample.root)) sample.start)
     = log sample.start ++ [EvRead (version_file_of sample.root)].
Proof.
  apply (parsed_version_shape (version_file_of sample.root) sample.start).
  reflexivity.
Defined.

Lemma elem_of_glob (f : FS) (wheels_path : list string) (suffix : string)
    (w : DirEntry) :
  w ∈ glob f wheels_path suffix <->
  exists entries, dirs f !! wheels_path = Some entries /\ w ∈ entries
                  /\ Py.endswith suffix (name w) = true.
Proof.
  unfold glob. destruct (dirs f !! wheels_path) as [entries|].
  - rewrite list_elem_of_filter. split.
    + intros [Hend Hin]. exists entries. by apply Is_true_true in Hend.
    + intros (? & [= <-] & Hin & Hend). by rewrite Hend.
  - split; [by intros ?%elem_of_nil|by intros (? & ? & _)].
Qed.

(** X10. What [locate_wheel] returns is the path, under the wheels
    directory, of an entry of that directory whose name ends in [.whl]. *)
Theorem locate_wheel_in_directory (f : FS) (wheels_path : list string)
    (version : string) (p : list string) :
  locate_wheel f wheels_path version = Some p ->
  exists entries e,
    dirs f !! wheels_path = Some entries /\ e ∈ entries
    /\ Py.endswith ".whl" (name e) = true
    /\ p = wheels_path // name e.
Proof.
  unfold locate_wheel. destruct (path_exists f wheels_path); [|done].
  cbn [negb].
  pose proof (locate_wheel_facts.sorted_desc_perm (glob f wheels_path ".whl"))
    as Hperm.
  assert (forall e, e ∈ sorted_desc (glob f wheels_path ".whl") ->
            forall q, q = wheels_path // name e ->
            exists entries e,
              dirs f !! wheels_path = Some entries /\ e ∈ entries
              /\ Py.endswith ".whl" (name e) = true
              /\ q = wheels_path // name e) as Hfound.
  { intros e He q ->. rewrite Hperm in He.
    apply elem_of_glob in He as (entries & ? & ? & ?). by exists entries, e. }
  destruct (first_with_version _ _) as [w|] eqn:Hfirst.
  - intros [= <-].
    apply locate_wheel_facts.first_with_version_Some in Hfirst
      as (l1 & l2 & Hl & _ & _).
    apply (Hfound w); [|done]. rewrite Hl. set_solver.
  - destruct (sorted_desc _) as [|w ws]; [done|].
    intros [= <-]. apply (Hfound w); [|done]. set_solver.
Qed.

Lemma locate_wheel_in_directory_witness :
  exists entries e,
    dirs (wheels_dir ["ws"; "wheels"] [release_wheel 10; dev_wheel 20])
      !! ["ws"; "wheels"] = Some entries
    /\ e ∈ entries /\ Py.endswith ".whl" (name e) = true
    /\ ["ws"; "wheels"; "pkg-1.2.3.dev99.whl"] = ["ws"; "wheels"] // name e.
Proof.
  apply (locate_wheel_in_directory
           (wheels_dir ["ws"; "wheels"] [release_wheel 10; dev_wheel 20])
           ["ws"; "wheels"] "1.2.3").
  vm_compute. reflexivity.
Defined.

(** X11. When no wheel's name contains the version, [locate_wheel] falls
    back on a newest wheel of the directory, whatever its name. *)
Theorem locate_wheel_fallback_newest (f : FS) (wheels_path : list string)
    (version : string) (w0 : DirEntry) :
  w0 ∈ glob f wheels_path ".whl" ->
  Forall (fun e => Py.contains version (name e) = false)
         (glob f wheels_path ".whl") ->
  exists w,
    locate_wheel f wheels_path version = Some (wheels_path // name w)
    /\ w ∈ glob f wheels_path ".whl"
    /\ forall w', w' ∈ glob f wheels_path ".whl" ->
                  (st_mtime w' <= st_mtime w)%Z.
Proof.
  intros Hw0 Hnone. unfold locate_wheel.
  assert (path_exists f wheels_path = true) as ->.
  { apply elem_of_glob in Hw0 as (entries & Hdir & _). unfold path_exists.
    rewrite Hdir. by rewrite bool_decide_true by eauto. }
  cbn [negb].
  pose proof (locate_wheel_facts.sorted_desc_perm (glob f wheels_path ".whl"))
    as Hperm.
  pose proof (locate_wheel_facts.sorted_desc_sorted (glob f wheels_path ".whl"))
    as Hsorted.
  assert (first_with_version version (sorted_desc (glob f wheels_path ".whl"))
          = None) as ->.
  { apply locate_wheel_facts.first_with_version_None. by rewrite Hperm. }
  destruct (sorted_desc _) as [|w ws] eqn:Hs.
  { rewrite <- Hperm in Hw0. by apply elem_of_nil in Hw0. }
  exists w. split; [done|]. split; [rewrite <- Hperm; set_solver|].
  intros w' Hw'. rewrite <- Hperm in Hw'.
  apply StronglySorted_inv in Hsorted as [_ Hall].
  apply elem_of_cons in Hw' as [->|Hw']; [lia|].
  rewrite Forall_forall in Hall. by apply Hall.
Qed.

Lemma locate_wheel_fallback_newest_witness :
  exists w,
    locate_wheel
      (wheels_dir ["ws"; "wheels"] [release_wheel 10; dev_wheel 20])
      ["ws"; "wheels"] "9.9" = Some (["ws"; "wheels"] // name w)
    /\ w ∈ glob (wheels_dir ["ws"; "wheels"] [release_wheel 10; dev_wheel 20])
             ["ws"; "wheels"] ".whl"
    /\ forall w',
         w' ∈ glob (wheels_dir ["ws"; "wheels"] [release_wheel 10; dev_wheel 20])
                ["ws"; "wheels"] ".whl" ->
         (st_mtime w' <= st_mtime w)%Z.
Proof.
  apply (locate_wheel_fallback_newest
           (wheels_dir ["ws"; "wheels"] [release_wheel 10; dev_wheel 20])
           ["ws"; "wheels"] "9.9" (release_wheel 10)).
  - vm_compute. set_solver.
  - vm_compute. repeat constructor.
Defined.

Lemma insert_desc_filter (t : Z) (x : DirEntry) (l : list DirEntry) :
  filter (fun e => st_mtime e = t) (insert_desc x l)
  = filter (fun e => st_mtime e = t) (x :: l).
Proof.
  induction l as [|y l IH]; simpl; [done|].
  destruct (Z.ltb_spec (st_mtime x) (st_mtime y)) as [Hlt|]; [|done].
  rewrite filter_cons, IH, !filter_cons.
  repeat case_decide; try done; lia.
Qed.

(** X12. The wheels are examined newest first, wheels of equal
    modification time in the order of the directory listing: the sort is a
    permutation, descending, and stable. *)
Theorem sorted_desc_stable (l : list DirEntry) :
  sorted_desc l ≡ₚ l
  /\ StronglySorted newer_first (sorted_desc l)
  /\ forall t : Z,
       filter (fun e => st_mtime e = t) (sorted_desc l)
       = filter (fun e => st_mtime e = t) l.
Proof.
  split; [apply locate_wheel_facts.sorted_desc_perm|].
  split; [apply locate_wheel_facts.sorted_desc_sorted|].
  intros t. induction l as [|x l IH]; [done|]. simpl.
  by rewrite insert_desc_filter, !filter_cons, IH.
Qed.

End wheel_more.


(** ** More on build: the commands that are run *)

Module runs_facts.
Import pip_build builder_spec builder_more_spec.

Lemma runs_of_app (l1 l2 : list event) :
  runs_of (l1 ++ l2) = runs_of l1 ++ runs_of l2.
Proof.
  induction l1 as [|e l1 IH]; [done|]. simpl. destruct e; by rewrite ?IH.
Qed.

Lemma runs_of_emit (e : event) (s : state) :
  runs_of (log (emit e s)) = runs_of (log s) ++ runs_of [e].
Proof. unfold emit. simpl. by rewrite runs_of_app. Qed.

Section facts.
Context (exec : command -> FS -> FS * cmd_result).
Context (sub_with_escapes : string -> string -> result string).
Context (environ : gmap string string).

(** A step that runs no command. *)
Lemma runs_within_quiet {A} (m : M A) :
  (forall s, runs_of (log (m s).1) = runs_of (log s)
             /\ os_environ (m s).1 = os_environ s) ->
  runs_within environ [] m.
Proof.
  intros Hm s Henv. destruct (Hm s) as [Hruns Hsame]. exists [].
  rewrite app_nil_r. split; [done|]. split; [congruence|]. by split.
Qed.

Lemma runs_within_bind {A B} (m : M A) (k : A -> M B)
    (l1 l2 : list command) :
  runs_within environ l1 m -> (forall a, runs_within environ l2 (k a)) ->
  runs_within environ (l1 ++ l2) (bind m k).
Proof.
  intros Hm Hk s Henv. unfold bind.
  destruct (Hm s Henv) as (cs1 & Hruns1 & Henv1 & Hpre1 & Hok1).
  destruct (m s) as [s1 [a|e]]; simpl in *.
  - destruct (Hk a s1 Henv1) as (cs2 & Hruns2 & Henv2 & Hpre2 & Hok2).
    rewrite (Hok1 a eq_refl) in Hruns1.
    exists (l1 ++ cs2). rewrite Hruns2, Hruns1, app_assoc.
    split; [done|]. split; [done|]. split; [by apply prefix_app|].
    intros b Hb. by rewrite (Hok2 b Hb).
  - exists cs1. split; [done|]. split; [done|].
    split; [by apply prefix_app_r|done].
Qed.

Lemma runs_within_ret {A} (a : A) : runs_within environ [] (ret a).
Proof. by apply runs_within_quiet. Qed.

Lemma runs_within_raise {A} (e : exn) : runs_within environ [] (@raise A e).
Proof. by apply runs_within_quiet. Qed.

Lemma runs_within_print (line : string) : runs_within environ [] (print line).
Proof.
  apply runs_within_quiet. intros s. simpl.
  by rewrite runs_of_app, app_nil_r.
Qed.

Lemma runs_within_read_text (p : list string) :
  runs_within environ [] (read_text p).
Proof.
  apply runs_within_quiet. intros s. unfold read_text.
  destruct (files (fs s) !! p); simpl; by rewrite runs_of_app, app_nil_r.
Qed.

Lemma runs_within_write_text (p : list string) (content : string) :
  runs_within environ [] (write_text p content).
Proof.
  apply runs_within_quiet. intros s. simpl.
  by rewrite runs_of_app, app_nil_r.
Qed.

Lemma runs_within_mkdir (p : list string) : runs_within environ [] (mkdir p).
Proof.
  apply runs_within_quiet. intros s. unfold mkdir.
  repeat case_bool_decide; simpl; by rewrite runs_of_app, app_nil_r.
Qed.

Lemma runs_within_copy2 (src dst : list string) :
  runs_within environ [] (copy2 src dst).
Proof.
  apply runs_within_quiet. intros s. unfold copy2.
  destruct (dir_lookup _ src); [destruct (dirs _ !! parent dst)|];
    simpl; by rewrite runs_of_app, app_nil_r.
Qed.

Lemma runs_within_parse_version (p : list string) :
  runs_within environ [] (parse_version p).
Proof.
  apply (runs_within_bind _ _ [] []); [apply runs_within_read_text|].
  intros content. destruct (Re.search content);
    [apply runs_within_ret|apply runs_within_raise].
Qed.

Lemma runs_within_run_command (cmd : command) :
  runs_within environ [cmd] (run_command exec cmd).
Proof.
  apply (runs_within_bind _ _ [] [cmd]); [apply runs_within_print|].
  intros _ s Henv. exists [cmd]. unfold subprocess_run.
  destruct (exec cmd (fs s)) as [f r].
  assert (runs_of (log (emit (EvRun cmd) (with_fs f s)))
          = runs_of (log s) ++ [cmd]) as Hruns.
  { by rewrite runs_of_emit. }
  destruct r as [rc| |]; [destruct (rc =? 0)%Z|..]; by simpl.
Qed.

Lemma runs_within_run_build_tools (root : list string) (version : string) :
  runs_within environ (build_commands root environ)
    (run_build_tools exec root version).
Proof.
  unfold run_build_tools, build_commands.
  apply (runs_within_bind _ _ [_] [_; _]); [apply runs_within_run_command|].
  intros _.
  apply (runs_within_bind _ _ [_] [_]); [apply runs_within_run_command|].
  intros _ s Henv. unfold bind. simpl. rewrite Henv.
  by apply runs_within_run_command.
Qed.

Lemma runs_within_try_finally {A} (body : M A) (handler : M unit)
    (l : list command) :
  runs_within environ l body -> runs_within environ [] handler ->
  runs_within environ l (try_finally body handler).
Proof.
  intros Hbody Hhandler s Henv. unfold try_finally.
  destruct (Hbody s Henv) as (cs & Hruns & Henv1 & Hpre & Hok).
  destruct (body s) as [s1 r]; simpl in *.
  destruct (Hhandler s1 Henv1) as (cs2 & Hruns2 & Henv2 & Hpre2 & _).
  apply prefix_nil_inv in Hpre2 as ->. rewrite app_nil_r in Hruns2.
  exists cs. destruct (handler s1) as [s2 [[]|e]]; simpl in *.
  - split; [congruence|]. by split.
  - split; [congruence|]. by split.
Qed.

Lemma runs_within_nightly_overrides {A} (root : list string)
    (is_nightly : bool) (body : string -> M A) (l : list command) :
  (forall v, runs_within environ l (body v)) ->
  runs_within environ l
    (nightly_overrides sub_with_escapes root is_nightly body).
Proof.
  intros Hbody. unfold nightly_overrides.
  apply (runs_within_bind _ _ [] l); [apply runs_within_read_text|].
  intros vc.
  apply (runs_within_bind _ _ [] l); [apply runs_within_read_text|].
  intros sc.
  apply (runs_within_bind _ _ [] l); [apply runs_within_parse_version|].
  intros v. apply runs_within_try_finally.
  - apply (runs_within_bind _ _ [] l).
    + destruct is_nightly; [|apply runs_within_ret].
      unfold apply_overrides.
      apply (runs_within_bind _ _ [] []); [by apply runs_within_quiet|].
      intros timestamp.
      apply (runs_within_bind _ _ [] []).
      { unfold re_sub_version. destruct (Re.has_escape _);
          [destruct (sub_with_escapes _ _)|];
          auto using runs_within_ret, runs_within_raise. }
      intros content.
      apply (runs_within_bind _ _ [] []); [apply runs_within_write_text|].
      intros _.
      apply (runs_within_bind _ _ [] []); [apply runs_within_write_text|].
      intros _. apply runs_within_ret.
    + intros v'. rewrite <- (app_nil_r l).
      apply runs_within_bind; [apply Hbody|]. intros _. apply runs_within_ret.
  - unfold restore. destruct is_nightly; [|apply runs_within_ret].
    apply (runs_within_bind _ _ [] []); [apply runs_within_write_text|].
    intros _. apply runs_within_write_text.
Qed.

Lemma runs_within_collect_wheel (root : list string) (version : string) :
  runs_within environ [] (collect_wheel root version).
Proof.
  unfold collect_wheel.
  apply (runs_within_bind _ _ [] []); [by apply runs_within_quiet|].
  intros [wheel|].
  - apply (runs_within_bind _ _ [] []); [apply runs_within_mkdir|]. intros _.
    apply (runs_within_bind _ _ [] []); [apply runs_within_copy2|]. intros _.
    apply (runs_within_bind _ _ [] []); [apply runs_within_print|]. intros _.
    apply runs_within_ret.
  - apply (runs_within_bind _ _ [] []); [apply runs_within_print|]. intros _.
    apply runs_within_ret.
Qed.

Lemma runs_within_build (root : list string) (is_nightly : bool) :
  runs_within environ (build_commands root environ)
    (build exec sub_with_escapes root is_nightly).
Proof.
  unfold build, build_wheels.
  rewrite <- (app_nil_r (build_commands root environ)).
  apply runs_within_bind; [|intros v; apply runs_within_collect_wheel].
  apply (runs_within_bind _ _ [] _); [apply runs_within_mkdir|]. intros _.
  apply runs_within_nightly_overrides. intros v.
  apply runs_within_run_build_tools.
Qed.

End facts.

(** X13. The only commands [build] runs are the configuration script,
    [bazel build] and the packaging tool, each at most once and in this
    order: the commands it adds to the log are a prefix of these three, and
    all three when it returns. *)
Theorem build_runs_tools_in_order
    (exec : command -> FS -> FS * cmd_result)
    (sub_with_escapes : string -> string -> result string)
    (root : list string) (is_nightly : bool) (s : state) :
  exists cs : list command,
    runs_of (log (build exec sub_with_escapes root is_nightly s).1)
      = runs_of (log s) ++ cs
    /\ cs `prefix_of` build_commands root (os_environ s)
    /\ (forall r, (build exec sub_with_escapes root is_nightly s).2 = Ok r ->
                  cs = build_commands root (os_environ s)).
Proof.
  destruct (runs_within_build exec sub_with_escapes (os_environ s) root
              is_nightly s eq_refl) as (cs & Hruns & _ & Hpre & Hok).
  by exists cs.
Qed.

Section failure.
Context (exec : command -> FS -> FS * cmd_result).
Context (sub_with_escapes : string -> string -> result string).
Context (environ : gmap string string).

Lemma stops_never {A} (m : M A) :
  (forall s rc failed, (m s).2 <> Raise (CalledProcessError rc failed)) ->
  stops_at_failure environ m.
Proof. intros Hm s rc failed _ Hraise. by apply Hm in Hraise. Qed.

Lemma stops_bind {A B} (m : M A) (k : A -> M B) (l : list command) :
  runs_within environ l m ->
  stops_at_failure environ m -> (forall a, stops_at_failure environ (k a)) ->
  stops_at_failure environ (bind m k).
Proof.
  intros Hruns Hm Hk s rc failed Henv. unfold bind.
  destruct (Hruns s Henv) as (cs & Hcs & Henv1 & _).
  specialize (Hm s rc failed Henv).
  destruct (m s) as [s1 [a|e]]; simpl in *;
    [|intros [= ->]; by apply Hm].
  intros Hraise.
  destruct (Hk a s1 rc failed Henv1 Hraise) as (Hrc & before & c & Hlog & Hc).
  split; [done|]. exists (cs ++ before), c.
  by rewrite Hlog, Hcs, <- !app_assoc.
Qed.

Lemma run_command_runs (cmd : command) (s : state) :
  runs_of (log (run_command exec cmd s).1) = runs_of (log s) ++ [cmd].
Proof.
  unfold run_command, bind, print, subprocess_run. simpl.
  destruct (exec cmd _) as [f r].
  assert (runs_of (log (emit (EvRun cmd)
                          (with_fs f (emit (EvPrint ("Running: " +:+
                             Py.join " " (argv cmd))) s))))
          = runs_of (log s) ++ [cmd]) as Hruns.
  { rewrite runs_of_emit. simpl. by rewrite runs_of_app, app_nil_r. }
  destruct r as [rc| |]; [destruct (rc =? 0)%Z|..]; by simpl.
Qed.

Lemma stops_run_command (cmd : command) :
  stops_at_failure environ (run_command exec cmd).
Proof.
  intros s rc failed _ Hraise.
  split; [|exists [], cmd; split; [apply run_command_runs|]];
    revert Hraise; unfold run_command, bind, print, subprocess_run; simpl;
    destruct (exec cmd _) as [f r];
    (destruct r as [rc'| |]; [destruct (Z.eqb_spec rc' 0)|..]);
    simpl; try done; by intros [= <- <-].
Qed.

Lemma stops_run_build_tools (root : list string) (version : string) :
  stops_at_failure environ (run_build_tools exec root version).
Proof.
  unfold run_build_tools.
  eapply stops_bind;
    [apply runs_within_run_command|apply stops_run_command|]. intros _.
  eapply stops_bind;
    [apply runs_within_run_command|apply stops_run_command|]. intros _.
  eapply (stops_bind _ _ []); [by apply runs_within_quiet|by apply stops_never|].
  intros e. apply stops_run_command.
Qed.

Lemma stops_nightly_overrides {A} (root : list string) (is_nightly : bool)
    (body : string -> M A) (l : list command) :
  no_process_error sub_with_escapes ->
  (forall v, runs_within environ l (body v)) ->
  (forall v, stops_at_failure environ (body v)) ->
  stops_at_failure environ
    (nightly_overrides sub_with_escapes root is_nightly body).
Proof.
  intros Hre Hruns Hbody. unfold nightly_overrides.
  eapply (stops_bind _ _ []); [apply runs_within_read_text| |].
  { apply stops_never. intros s rc failed. unfold read_text.
    by destruct (files (fs s) !! _). }
  intros vc.
  eapply (stops_bind _ _ []); [apply runs_within_read_text| |].
  { apply stops_never. intros s rc failed. unfold read_text.
    by destruct (files (fs s) !! _). }
  intros sc.
  eapply (stops_bind _ _ []); [apply runs_within_parse_version| |].
  { apply stops_never. intros s rc failed. unfold parse_version, bind, read_text.
    destruct (files (fs s) !! _) as [content|]; [|done].
    by destruct (Re.search content). }
  intros v s rc failed Henv. rewrite build_facts.try_finally_state.
  set (body' := bind _ _).
  assert ((try_finally body'
             (restore is_nightly (version_file_of root) (setup_file_of root)
                vc sc) s).2 = (body' s).2) as ->.
  { unfold try_finally. destruct (body' s) as [s1 r].
    unfold restore. by destruct is_nightly. }
  assert (runs_of (log (restore is_nightly (version_file_of root)
                          (setup_file_of root) vc sc (body' s).1).1)
          = runs_of (log (body' s).1)) as ->.
  { unfold restore. destruct is_nightly; [|done]. simpl.
    rewrite !runs_of_app. simpl. by rewrite !app_nil_r. }
  revert s rc failed Henv. fold (stops_at_failure environ body').
  unfold body'.
  eapply (stops_bind _ _ []).
  - destruct is_nightly; [|apply runs_within_ret]. unfold apply_overrides.
    apply (runs_within_bind _ _ _ [] []); [by apply runs_within_quiet|].
    intros timestamp.
    apply (runs_within_bind _ _ _ [] []).
    { unfold re_sub_version. destruct (Re.has_escape _);
        [destruct (sub_with_escapes _ _)|];
        auto using runs_within_ret, runs_within_raise. }
    intros content.
    apply (runs_within_bind _ _ _ [] []); [apply runs_within_write_text|].
    intros _.
    apply (runs_within_bind _ _ _ [] []); [apply runs_within_write_text|].
    intros _. apply runs_within_ret.
  - apply stops_never. intros s rc failed.
    destruct is_nightly; [|done].
    unfold apply_overrides, bind, re_sub_version. simpl.
    destruct (Re.has_escape _); [|done].
    destruct (sub_with_escapes _ _) as [content|e] eqn:Hsub; [done|].
    simpl. intros [= ->]. by apply Hre in Hsub.
  - intros v'. eapply stops_bind; [apply Hruns|apply Hbody|].
    intros _. by apply stops_never.
Qed.

Lemma bind_no_process_error {A B} (m : M A) (k : A -> M B) :
  (forall s rc failed, (m s).2 <> Raise (CalledProcessError rc failed)) ->
  (forall a s rc failed, (k a s).2 <> Raise (CalledProcessError rc failed)) ->
  forall s rc failed, (bind m k s).2 <> Raise (CalledProcessError rc failed).
Proof.
  intros Hm Hk s rc failed. unfold bind. specialize (Hm s rc failed).
  destruct (m s) as [s1 [a|e]]; simpl in *; [apply Hk|congruence].
Qed.

Lemma mkdir_no_process_error (p : list string) (s : state) (rc : Z)
    (failed : list string) :
  (mkdir p s).2 <> Raise (CalledProcessError rc failed).
Proof. unfold mkdir. by repeat case_bool_decide. Qed.

Lemma copy2_no_process_error (src dst : list string) (s : state) (rc : Z)
    (failed : list string) :
  (copy2 src dst s).2 <> Raise (CalledProcessError rc failed).
Proof.
  unfold copy2. destruct (dir_lookup _ src); [|done].
  by destruct (dirs _ !! parent dst).
Qed.

Lemma collect_wheel_no_process_error (root : list string) (version : string)
    (s : state) (rc : Z) (failed : list string) :
  (collect_wheel root version s).2 <> Raise (CalledProcessError rc failed).
Proof.
  revert s rc failed. unfold collect_wheel.
  apply bind_no_process_error; [done|]. intros [wheel|].
  - apply bind_no_process_error; [apply mkdir_no_process_error|]. intros _.
    apply bind_no_process_error; [apply copy2_no_process_error|]. intros _.
    by apply bind_no_process_error.
  - by apply bind_no_process_error.
Qed.

Lemma stops_build (root : list string) (is_nightly : bool) :
  no_process_error sub_with_escapes ->
  stops_at_failure environ (build exec sub_with_escapes root is_nightly).
Proof.
  intros Hre. unfold build.
  eapply stops_bind.
  - unfold build_wheels.
    apply (runs_within_bind _ _ _ [] (build_commands root environ));
      [apply runs_within_mkdir|]. intros _.
    apply runs_within_nightly_overrides. intros v.
    apply runs_within_run_build_tools.
  - unfold build_wheels.
    eapply (stops_bind _ _ []); [apply runs_within_mkdir| |].
    { apply stops_never. intros s rc failed. apply mkdir_no_process_error. }
    intros _. eapply stops_nightly_overrides; [done| |].
    + intros v. apply runs_within_run_build_tools.
    + intros v. apply stops_run_build_tools.
  - intros version. apply stops_never. apply collect_wheel_no_process_error.
Qed.

End failure.

(** X14. When [build] raises [CalledProcessError], the status it carries
    is not zero and the command it names is the last command that was run:
    no later tool is started. *)
Theorem failing_tool_is_last
    (exec : command -> FS -> FS * cmd_result)
    (sub_with_escapes : string -> string -> result string)
    (root : list string) (is_nightly : bool) (s : state)
    (rc : Z) (failed : list string) :
  no_process_error sub_with_escapes ->
  (build exec sub_with_escapes root is_nightly s).2
    = Raise (CalledProcessError rc failed) ->
  rc <> 0%Z
  /\ exists (before : list command) (c : command),
       runs_of (log (build exec sub_with_escapes root is_nightly s).1)
         = runs_of (log s) ++ before ++ [c]
       /\ argv c = failed.
Proof.
  intros Hre Hraise.
  by apply (stops_build exec sub_with_escapes (os_environ s) root is_nightly
              Hre s rc failed eq_refl).
Qed.

Lemma failing_tool_is_last_witness :
  3%Z <> 0%Z
  /\ exists (before : list command) (c : command),
       runs_of (log (build (sample.exec [Exited 0; Exited 3])
                       sample.no_escapes sample.root true sample.start).1)
         = runs_of (log sample.start) ++ before ++ [c]
       /\ argv c = ["bazel"; "build"; "build_pip_pkg"].
Proof.
  apply (failing_tool_is_last (sample.exec [Exited 0; Exited 3])
           sample.no_escapes sample.root true sample.start).
  - intros repl content rc failed. discriminate.
  - vm_compute. reflexivity.
Defined.

End runs_facts.

(** ** More on build and the entry point *)

Module build_more.
Import pip_build builder_spec builder_more_spec build_more_spec.

Lemma parent_div (p : list string) (n : string) : parent (p // n) = p.
Proof. unfold parent, div. apply removelast_last. Qed.

Lemma path_name_div (p : list string) (n : string) : path_name (p // n) = n.
Proof. unfold path_name, div. by rewrite last_snoc. Qed.

Lemma div_inj (p : list string) (n m : string) : p // n = p // m -> n = m.
Proof. unfold div. intros Heq. apply app_inv_head in Heq. by injection Heq. Qed.

Lemma find_put_entry (e : DirEntry) (entries : list DirEntry) :
  List.find (fun x => bool_decide (name x = name e)) (put_entry e entries)
  = Some e.
Proof.
  induction entries as [|e' rest IH]; simpl.
  - by rewrite bool_decide_true.
  - case_bool_decide as Hname; simpl.
    + by rewrite bool_decide_true.
    + by rewrite bool_decide_false.
Qed.

Lemma find_elem {A} (f : A -> bool) (l : list A) (x : A) :
  x ∈ l -> f x = true -> exists y, List.find f l = Some y.
Proof.
  intros Hin Hx. induction Hin as [x l|x y l Hin IH]; simpl.
  - rewrite Hx. by eexists.
  - destruct (f y); [by eexists|by apply IH].
Qed.

Lemma locate_wheel_from_glob (f : FS) (wheels_path : list string)
    (version : string) (p : list string) :
  locate_wheel f wheels_path version = Some p ->
  exists w, w ∈ glob f wheels_path ".whl" /\ p = wheels_path // name w.
Proof.
  unfold locate_wheel. destruct (path_exists f wheels_path); [|done].
  cbn [negb].
  pose proof (locate_wheel_facts.sorted_desc_perm (glob f wheels_path ".whl"))
    as Hperm.
  destruct (first_with_version _ _) as [w|] eqn:Hfirst.
  - intros [= <-].
    apply locate_wheel_facts.first_with_version_Some in Hfirst
      as (l1 & l2 & Hl & _ & _).
    exists w. split; [|done]. rewrite <- Hperm, Hl. set_solver.
  - destruct (sorted_desc _) as [|w ws]; [done|].
    intros [= <-]. exists w. split; [|done]. rewrite <- Hperm. set_solver.
Qed.

Lemma dist_and_wheels_differ (root : list string) :
  root // dist_directory <> root // wheels_directory.
Proof. by intros ?%div_inj. Qed.

(** X15. When a wheel is located and [dist] is not a regular file,
    [build] ends by returning the path of the same name under [dist], where
    the listing now holds an entry with the wheel's modification time and
    content; the wheels directory and the text files are left as they
    were. *)
Theorem collect_wheel_copies (root : list string) (version : string)
    (wheel : list string) (s : state) :
  locate_wheel (fs s) (root // wheels_directory) version = Some wheel ->
  files (fs s) !! (root // dist_directory) = None ->
  exists e : DirEntry,
    dir_lookup (fs s) wheel = Some e
    /\ (collect_wheel root version s).2
       = Ok (Some (root // dist_directory // path_name wheel))
    /\ dir_lookup (fs (collect_wheel root version s).1)
         (root // dist_directory // path_name wheel)
       = Some {| name := path_name wheel; st_mtime := st_mtime e;
                 data := data e |}
    /\ dirs (fs (collect_wheel root version s).1) !! (root // wheels_directory)
       = dirs (fs s) !! (root // wheels_directory)
    /\ files (fs (collect_wheel root version s).1) = files (fs s).
Proof.
  intros Hwheel Hdist.
  destruct (locate_wheel_from_glob _ _ _ _ Hwheel) as (w & Hw & ->).
  apply wheel_more.elem_of_glob in Hw as (entries & Hdir & Hin & _).
  assert (exists e, dir_lookup (fs s) (root // wheels_directory // name w)
                    = Some e) as [e He].
  { unfold dir_lookup. rewrite parent_div, Hdir, path_name_div.
    apply (find_elem _ _ w Hin). by rewrite bool_decide_true. }
  exists e. split; [done|].
  rewrite path_name_div.
  set (target := root // dist_directory // name w).
  assert (parent target = root // dist_directory) as Hpt by apply parent_div.
  assert (path_name target = name w) as Hnt by apply path_name_div.
  destruct s as [[fl dr] en nw lg]. cbn [fs files dirs] in *.
  assert (exists entries_d dr1 lg1,
            dr1 !! (root // dist_directory) = Some entries_d
            /\ dr1 !! (root // wheels_directory) = Some entries
            /\ mkdir (root // dist_directory)
                 {| fs := {| files := fl; dirs := dr |}; os_environ := en;
                    now := nw; log := lg |}
               = ({| fs := {| files := fl; dirs := dr1 |}; os_environ := en;
                     now := nw; log := lg1 |}, Ok tt))
    as (entries_d & dr1 & lg1 & Hd1 & Hw1 & Hmk).
  { unfold mkdir. cbn. rewrite Hdist.
    rewrite bool_decide_false by by intros [? ?].
    case_bool_decide as Hsome.
    - destruct Hsome as [x Hx]. by exists x, dr, (lg ++ [EvMkdir (root // dist_directory)]).
    - exists [], (<[root // dist_directory := []]> dr),
        (lg ++ [EvMkdir (root // dist_directory)]).
      rewrite lookup_insert_eq.
      by rewrite lookup_insert_ne by apply dist_and_wheels_differ. }
  assert (collect_wheel root version
            {| fs := {| files := fl; dirs := dr |}; os_environ := en;
               now := nw; log := lg |}
          = ({| fs := {| files := fl;
                         dirs := <[root // dist_directory :=
                                   put_entry {| name := name w;
                                                st_mtime := st_mtime e;
                                                data := data e |} entries_d]> dr1 |};
                os_environ := en; now := nw;
                log := lg1 ++ [EvCopy (root // wheels_directory // name w) target;
                               EvPrint ("Build successful. Wheel file available at " +:+ str target)] |},
             Ok (Some target))) as ->.
  { unfold collect_wheel, bind at 1. cbn [fs]. rewrite Hwheel.
    rewrite path_name_div. fold target.
    unfold bind at 1. rewrite Hmk.
    unfold bind, copy2, print, ret. cbn [emit fs dirs files with_fs log os_environ now].
    assert (dir_lookup {| files := fl; dirs := dr1 |}
              (root // wheels_directory // name w) = Some e) as ->.
    { revert He. unfold dir_lookup. cbn [dirs].
      by rewrite parent_div, path_name_div, Hw1, Hdir. }
    rewrite Hpt, Hd1, Hnt. unfold emit, with_fs. cbn.
    by rewrite <- app_assoc. }
  cbn [fst snd fs dirs files].
  split; [done|]. split; [|split; [|done]].
  - unfold dir_lookup. rewrite Hpt, Hnt. cbn [dirs].
    rewrite lookup_insert_eq.
    apply (find_put_entry {| name := name w; st_mtime := st_mtime e;
                             data := data e |}).
  - rewrite lookup_insert_ne by apply dist_and_wheels_differ.
    by rewrite Hw1, Hdir.
Qed.

Section facts.
Context (exec : command -> FS -> FS * cmd_result).
Context (sub_with_escapes : string -> string -> result string).
Context (root : list string).

(** X16. When the version file holds no [__version__] declaration,
    [build] raises [ValueError] before any tool is run, with or without the
    nightly flag; it has created the wheels directory and read the two
    files, and no file has been written. *)
Theorem unparsable_version_stops_build (is_nightly : bool) (s : state)
    (vc sc : string) :
  files (fs s) !! version_file_of root = Some vc ->
  files (fs s) !! setup_file_of root = Some sc ->
  Re.search vc = None ->
  files (fs s) !! (root // wheels_directory) = None ->
  exists s' : state,
    build exec sub_with_escapes root is_nightly s
      = (s', Raise (ValueError version_pattern_error))
    /\ files (fs s') = files (fs s)
    /\ log s' = log s ++ [EvMkdir (root // wheels_directory);
                          EvRead (version_file_of root);
                          EvRead (setup_file_of root);
                          EvRead (version_file_of root)]
    /\ is_Some (dirs (fs s') !! (root // wheels_directory)).
Proof.
  intros Hvf Hsf Hv Hw.
  unfold build, build_wheels, bind at 1, bind at 1, mkdir.
  cbn [emit fs files]. rewrite Hw. rewrite bool_decide_false by by intros [? ?].
  assert (forall s0 : state,
            files (fs s0) = files (fs s) ->
            nightly_overrides sub_with_escapes root is_nightly
              (run_build_tools exec root) s0
            = (emit_all [EvRead (version_file_of root);
                         EvRead (setup_file_of root);
                         EvRead (version_file_of root)] s0,
               Raise (ValueError version_pattern_error))) as Hnightly.
  { intros s0 Hfiles.
    unfold nightly_overrides, parse_version, bind, read_text.
    rewrite Hfiles, Hvf. cbn [emit fs]. rewrite Hfiles, Hsf.
    cbn [emit fs]. rewrite Hfiles, Hvf, Hv.
    unfold raise, emit_all, emit. cbn. by rewrite <- !app_assoc. }
  case_bool_decide as Hsome.
  - rewrite Hnightly by done. eexists. split; [reflexivity|].
    cbn. rewrite <- !app_assoc. by split.
  - rewrite Hnightly by done. eexists. split; [reflexivity|].
    cbn. rewrite <- !app_assoc. split; [done|]. split; [done|].
    rewrite lookup_insert_eq. eauto.
Qed.

(** X17. [setup.py] is read before anything is built, also without the
    nightly flag: when it is missing, [build] raises [FileNotFoundError]
    and no tool is run. *)
Theorem missing_setup_stops_build (is_nightly : bool) (s : state)
    (vc : string) :
  files (fs s) !! version_file_of root = Some vc ->
  files (fs s) !! setup_file_of root = None ->
  files (fs s) !! (root // wheels_directory) = None ->
  exists s' : state,
    build exec sub_with_escapes root is_nightly s
      = (s', Raise (FileNotFoundError (str (setup_file_of root))))
    /\ files (fs s') = files (fs s)
    /\ log s' = log s ++ [EvMkdir (root // wheels_directory);
                          EvRead (version_file_of root);
                          EvRead (setup_file_of root)].
Proof.
  intros Hvf Hsf Hw.
  unfold build, build_wheels, bind at 1, bind at 1, mkdir.
  cbn [emit fs files]. rewrite Hw. rewrite bool_decide_false by by intros [? ?].
  assert (forall s0 : state,
            files (fs s0) = files (fs s) ->
            nightly_overrides sub_with_escapes root is_nightly
              (run_build_tools exec root) s0
            = (emit_all [EvRead (version_file_of root);
                         EvRead (setup_file_of root)] s0,
               Raise (FileNotFoundError (str (setup_file_of root)))))
    as Hnightly.
  { intros s0 Hfiles.
    unfold nightly_overrides, bind, read_text.
    rewrite Hfiles, Hvf. cbn [emit fs]. rewrite Hfiles, Hsf.
    unfold emit_all, emit. cbn. by rewrite <- !app_assoc. }
  case_bool_decide as Hsome; rewrite Hnightly by done;
    (eexists; split; [reflexivity|]); cbn; rewrite <- !app_assoc; by split.
Qed.

(** X18. When the tools succeed but leave no wheel in the wheels
    directory, the script prints that the build failed and ends normally,
    with exit status 0, and does not run [pip3], also with [--install]. *)
Theorem main_without_wheel_exits_zero (args_install args_nightly : bool)
    (s s1 : state) (version : string) :
  build_wheels exec sub_with_escapes root args_nightly s = (s1, Ok version) ->
  glob (fs s1) (root // wheels_directory) ".whl" = [] ->
  main exec sub_with_escapes args_install args_nightly root s
    = (emit (EvPrint "Build failed. No wheel found.") s1, Finished)
  /\ exit_status
       (main exec sub_with_escapes args_install args_nightly root s).2 = 0%Z.
Proof.
  intros Hwheels Hglob.
  assert (locate_wheel (fs s1) (root // wheels_directory) version = None)
    as Hnone.
  { apply locate_wheel_facts.locate_wheel_None. by right. }
  assert (main exec sub_with_escapes args_install args_nightly root s
          = (emit (EvPrint "Build failed. No wheel found.") s1, Finished))
    as Hmain.
  { unfold main, build, bind at 1. rewrite Hwheels.
    unfold collect_wheel, bind at 1. by rewrite Hnone. }
  by rewrite Hmain.
Qed.

(** X19. The script runs [pip3] only with [--install] and only after
    [build] has returned a wheel; it is then the one command after the
    three tools, and its last argument is the path [build] returned.
    Otherwise the commands run are those of [build]. *)
Theorem main_runs_pip_only_on_install (args_install args_nightly : bool)
    (s : state) :
  exists cs : list command,
    runs_of (log (main exec sub_with_escapes args_install args_nightly
                    root s).1)
      = runs_of (log s) ++ cs
    /\ (cs `prefix_of` build_commands root (os_environ s)
        \/ (args_install = true
            /\ exists target : list string,
                 (build exec sub_with_escapes root args_nightly s).2
                   = Ok (Some target)
                 /\ cs = build_commands root (os_environ s)
                           ++ [pip_command target])).
Proof.
  destruct (runs_facts.runs_within_build exec sub_with_escapes (os_environ s)
              root args_nightly s eq_refl) as (cs & Hruns & _ & Hpre & Hok).
  unfold main.
  destruct (build exec sub_with_escapes root args_nightly s)
    as [s1 [[target|]|e]]; simpl in *.
  - destruct args_install.
    + exists (cs ++ [pip_command target]).
      pose proof (runs_facts.run_command_runs exec (pip_command target) s1)
        as Hpip.
      unfold install_whl. fold (pip_command target).
      destruct (run_command exec (pip_command target) s1) as [s2 [[]|e]];
        simpl in *; rewrite Hpip, Hruns, <- app_assoc;
        (split; [done|]); right; (split; [done|]); exists target;
        by rewrite (Hok _ eq_refl).
    + exists cs. by split; [|left].
  - exists cs. by split; [|left].
  - exists cs. destruct e; simpl; try (by split; [|left]).
    rewrite runs_facts.runs_of_app, app_nil_r. by split; [|left].
Qed.

(** X20. When [build] raises [CalledProcessError] with a status between
    1 and 255, the script prints that status and exits with it, and runs
    nothing more. *)
Theorem build_failure_sets_exit_status (args_install args_nightly : bool)
    (s : state) (rc : Z) (failed : list string) :
  (build exec sub_with_escapes root args_nightly s).2
    = Raise (CalledProcessError rc failed) ->
  (0 < rc < 256)%Z ->
  main exec sub_with_escapes args_install args_nightly root s
    = (emit (EvPrint ("Command failed with exit code " +:+ pretty rc))
         (build exec sub_with_escapes root args_nightly s).1,
       SystemExit rc)
  /\ exit_status
       (main exec sub_with_escapes args_install args_nightly root s).2 = rc.
Proof.
  intros Hbuild Hrc. unfold main.
  destruct (build exec sub_with_escapes root args_nightly s) as [s1 r].
  simpl in Hbuild. subst r. simpl. split; [done|]. apply Z.mod_small. lia.
Qed.

End facts.

Lemma build_failure_sets_exit_status_witness :
  main (sample.exec [Exited 0; Exited 3]) sample.no_escapes true true
    sample.root sample.start
  = (emit (EvPrint ("Command failed with exit code " +:+ pretty 3%Z))
       (build (sample.exec [Exited 0; Exited 3]) sample.no_escapes
          sample.root true sample.start).1,
     SystemExit 3)
  /\ exit_status
       (main (sample.exec [Exited 0; Exited 3]) sample.no_escapes true true
          sample.root sample.start).2 = 3%Z.
Proof.
  apply (build_failure_sets_exit_status
           (sample.exec [Exited 0; Exited 3]) sample.no_escapes sample.root
           true true sample.start 3 ["bazel"; "build"; "build_pip_pkg"]).
  - vm_compute. reflexivity.
  - lia.
Defined.

Lemma collect_wheel_copies_witness :
  exists e : DirEntry,
    dir_lookup (wheel_spec.wheels_dir ["ws"; "wheels"]
                  [wheel_spec.release_wheel 10])
      ["ws"; "wheels"; "pkg-1.2.3.whl"] = Some e
    /\ (collect_wheel sample.root "1.2.3"
          {| fs := wheel_spec.wheels_dir ["ws"; "wheels"]
                     [wheel_spec.release_wheel 10];
             os_environ := ∅; now := now sample.start; log := [] |}).2
       = Ok (Some ["ws"; "dist"; "pkg-1.2.3.whl"]).
Proof.
  destruct (collect_wheel_copies sample.root "1.2.3"
              ["ws"; "wheels"; "pkg-1.2.3.whl"]
              {| fs := wheel_spec.wheels_dir ["ws"; "wheels"]
                         [wheel_spec.release_wheel 10];
                 os_environ := ∅; now := now sample.start; log := [] |})
    as (e & He & Hr & _).
  - vm_compute. reflexivity.
  - reflexivity.
  - exists e. split; [exact He|exact Hr].
Defined.

Lemma unparsable_version_stops_build_witness :
  exists s' : state,
    build sample.idle sample.no_escapes sample.root true unversioned
      = (s', Raise (ValueError version_pattern_error))
    /\ files (fs s') = files (fs unversioned)
    /\ log s' = log unversioned
                ++ [EvMkdir (sample.root // wheels_directory);
                    EvRead (version_file_of sample.root);
                    EvRead (setup_file_of sample.root);
                    EvRead (version_file_of sample.root)]
    /\ is_Some (dirs (fs s') !! (sample.root // wheels_directory)).
Proof.
  apply (unparsable_version_stops_build sample.idle sample.no_escapes
           sample.root true unversioned "# no version here"
           sample.setup_content); reflexivity.
Defined.

Lemma missing_setup_stops_build_witness :
  exists s' : state,
    build sample.idle sample.no_escapes sample.root false without_setup
      = (s', Raise (FileNotFoundError (str (setup_file_of sample.root))))
    /\ files (fs s') = files (fs without_setup)
    /\ log s' = log without_setup
                ++ [EvMkdir (sample.root // wheels_directory);
                    EvRead (version_file_of sample.root);
                    EvRead (setup_file_of sample.root)].
Proof.
  apply (missing_setup_stops_build sample.idle sample.no_escapes
           sample.root false without_setup sample.version_content);
    reflexivity.
Defined.

Lemma main_without_wheel_exits_zero_witness :
  exit_status
    (main sample.idle sample.no_escapes true false sample.root sample.start).2
  = 0%Z.
Proof.
  apply (main_without_wheel_exits_zero sample.idle sample.no_escapes
           sample.root true false sample.start
           (build_wheels sample.idle sample.no_escapes sample.root false
              sample.start).1 "1.2.3").
  - vm_compute. reflexivity.
  - vm_compute. reflexivity.
Defined.

Lemma replace_absent (old new s : string) :
  Py.contains old s = false -> Py.replace old new s = s.
Proof.
  unfold Py.replace. induction s as [|c s IH]; simpl.
  - by destruct old.
  - destruct (Py.startswith old (String c s)); [done|].
    intros Hs. by rewrite IH.
Qed.

(** X21. When [setup.py] does not contain the exact text
    [name="keras-cv"], the nightly rewriting writes [setup.py] back with
    its original content: the package is not renamed. *)
Theorem setup_without_literal_is_kept
    (sub_with_escapes : string -> string -> result string)
    (version_file setup_file : list string) (vc sc v v' : string)
    (s s1 : state) :
  Py.contains ("name=" +:+ DQ +:+ "keras-cv" +:+ DQ) sc = false ->
  apply_overrides sub_with_escapes version_file setup_file vc sc v s
    = (s1, Ok v') ->
  files (fs s1) !! setup_file = Some sc
  /\ v' = v +:+ ".dev" +:+ strftime_YmdH (now s).
Proof.
  intros Hsc. unfold apply_overrides, bind at 1. cbn [fst snd].
  unfold bind at 1, re_sub_version.
  rewrite (replace_absent _ _ _ Hsc).
  destruct (Re.has_escape _).
  - destruct (sub_with_escapes _ _) as [content|e]; [|done].
    unfold bind, write_text, ret. cbn. intros [= <- <-].
    cbn. by rewrite lookup_insert_eq.
  - unfold bind, write_text, ret. cbn. intros [= <- <-].
    cbn. by rewrite lookup_insert_eq.
Qed.

Lemma setup_without_literal_is_kept_witness :
  files (fs (apply_overrides sample.no_escapes
               (version_file_of sample.root) (setup_file_of sample.root)
               sample.version_content single_quoted_setup "1.2.3"
               sample.start).1)
    !! setup_file_of sample.root = Some single_quoted_setup
  /\ "1.2.3.dev2026110307"
     = "1.2.3" +:+ ".dev" +:+ strftime_YmdH (now sample.start).
Proof.
  apply (setup_without_literal_is_kept sample.no_escapes
           (version_file_of sample.root) (setup_file_of sample.root)
           sample.version_content single_quoted_setup "1.2.3"
           "1.2.3.dev2026110307" sample.start).
  - vm_compute. reflexivity.
  - vm_compute. reflexivity.
Defined.

Lemma digit_inj (a b : nat) : digit a = digit b -> a mod 10 = b mod 10.
Proof.
  unfold digit. intros Heq.
  apply (f_equal Ascii.nat_of_ascii) in Heq.
  assert (a mod 10 < 10) by (apply Nat.mod_upper_bound; lia).
  assert (b mod 10 < 10) by (apply Nat.mod_upper_bound; lia).
  rewrite !Ascii.nat_ascii_embedding in Heq by lia. lia.
Qed.

Lemma two_digits (a : nat) :
  a < 100 -> a = 10 * ((a / 10) mod 10) + a mod 10.
Proof.
  intros Ha. pose proof (Nat.div_mod_eq a 10) as Hdm.
  pose proof (Nat.mod_upper_bound a 10) as Hr.
  rewrite (Nat.mod_small (a / 10)); lia.
Qed.

Lemma four_digits (a : nat) :
  a < 100 * 100 ->
  a = 1000 * ((a / 1000) mod 10) + 100 * ((a / 100) mod 10)
      + 10 * ((a / 10) mod 10) + a mod 10.
Proof.
  intros Ha.
  pose proof (Nat.div_mod_eq a 10) as H1.
  pose proof (Nat.div_mod_eq (a / 10) 10) as H2.
  pose proof (Nat.div_mod_eq (a / 100) 10) as H3.
  rewrite Nat.Div0.div_div in H2, H3.
  change (10 * 10) with 100 in H2. change (100 * 10) with 1000 in H3.
  pose proof (Nat.mod_upper_bound a 10).
  pose proof (Nat.mod_upper_bound (a / 10) 10).
  pose proof (Nat.mod_upper_bound (a / 100) 10).
  rewrite (Nat.mod_small (a / 1000)); lia.
Qed.

Lemma pad2_inj (a b : nat) : a < 100 -> b < 100 -> pad2 a = pad2 b -> a = b.
Proof.
  unfold pad2. intros Ha Hb.
  remember (a / 10) as qa eqn:Hqa. remember (b / 10) as qb eqn:Hqb.
  intros [= H1%digit_inj H2%digit_inj]. subst qa qb.
  rewrite (two_digits a Ha), (two_digits b Hb). by rewrite H1, H2.
Qed.

Lemma pad4_inj (a b : nat) :
  a < 100 * 100 -> b < 100 * 100 -> pad4 a = pad4 b -> a = b.
Proof.
  unfold pad4, pad2. intros Ha Hb.
  remember (a / 1000) as a3 eqn:Ha3. remember (b / 1000) as b3 eqn:Hb3.
  remember (a / 100) as a2 eqn:Ha2. remember (b / 100) as b2 eqn:Hb2.
  remember (a / 10) as a1 eqn:Ha1. remember (b / 10) as b1 eqn:Hb1.
  intros [= H1%digit_inj H2%digit_inj H3%digit_inj H4%digit_inj].
  subst a1 a2 a3 b1 b2 b3.
  rewrite (four_digits a Ha), (four_digits b Hb). by rewrite H1, H2, H3, H4.
Qed.

Lemma app_fixed_length (a b c d : string) :
  String.length a = String.length c -> a +:+ b = c +:+ d -> a = c /\ b = d.
Proof.
  revert c. induction a as [|x a IH]; intros [|y c]; simpl; try done.
  intros [= Hlen]. rewrite !string_facts.app_cons. intros [= -> Heq].
  destruct (IH c Hlen Heq) as [-> ->]. done.
Qed.

Lemma strftime_fields (d1 d2 : datetime) :
  fits_fields d1 -> fits_fields d2 ->
  strftime_YmdH d1 = strftime_YmdH d2 ->
  year d1 = year d2 /\ month d1 = month d2 /\ day d1 = day d2
  /\ hour d1 = hour d2.
Proof.
  intros (Hy1 & Hm1 & Hd1 & Hh1) (Hy2 & Hm2 & Hd2 & Hh2).
  unfold strftime_YmdH.
  intros [Hy Heq]%app_fixed_length; [|done].
  apply app_fixed_length in Heq as [Hm Heq]; [|done].
  apply app_fixed_length in Heq as [Hd Hh]; [|done].
  split_and!; [by apply pad4_inj|by apply pad2_inj..].
Qed.

(** X22. The timestamp has hour resolution: for clocks whose fields fit
    their digits, two nightly versions of the same version are equal exactly
    when the builds started in the same hour of the same day. *)
Theorem nightly_version_identifies_hour (v : string) (d1 d2 : datetime) :
  fits_fields d1 -> fits_fields d2 ->
  (v +:+ ".dev" +:+ strftime_YmdH d1 = v +:+ ".dev" +:+ strftime_YmdH d2
   <-> (year d1, month d1, day d1, hour d1)
       = (year d2, month d2, day d2, hour d2)).
Proof.
  intros Hfit1 Hfit2. split.
  - intros Heq. apply String.app_inj in Heq.
    apply (String.app_inj ".dev") in Heq.
    destruct (strftime_fields d1 d2) as (Hy & Hm & Hd & Hh); [done..|].
    congruence.
  - intros [= Hy Hm Hd Hh]. unfold strftime_YmdH.
    by rewrite Hy, Hm, Hd, Hh.
Qed.

Lemma nightly_version_identifies_hour_witness :
  "1.2.3" +:+ ".dev" +:+ strftime_YmdH (now sample.start)
  = "1.2.3" +:+ ".dev" +:+ strftime_YmdH (now sample.start)
  <-> (year (now sample.start), month (now sample.start),
       day (now sample.start), hour (now sample.start))
      = (year (now sample.start), month (now sample.start),
         day (now sample.start), hour (now sample.start)).
Proof.
  apply (nightly_version_identifies_hour "1.2.3" (now sample.start)
           (now sample.start)); cbv [fits_fields]; simpl; lia.
Defined.

End build_more.
